(** * modeltranslation: per-language shadow fields over Django models

    A shallow embedding of [modeltranslation/fields.py]: the field factory
    [create_translation_field], the wrapping classes [TranslationField] and
    [TranslationFileField] (with [TranslationImageField]), and the attribute
    descriptor [TranslationFieldDescriptor], followed by the properties of
    the natural-language specification proved or refuted on them.

    Python objects are modelled by their [__dict__]: a finite map from
    attribute names to values for model instances, a record of the typed
    attributes plus a finite map for the remaining ones for fields.
    Exceptions are modelled by a result type; the ambient active language
    and the settings constants are passed explicitly. *)

From stdpp Require Import gmap strings list fin_maps.
From Stdlib Require Import ZArith.

Local Open Scope string_scope.

(** ** Python values *)

(** The values an attribute of a model instance, a keyword argument or a
    database-bound value can hold, as far as this module distinguishes
    them. [VFile] is a [FieldFile] with its [name]; [VFunc] a callable;
    [VClass] a class object (such as a widget class); [VObj] any other
    object, identified by a label. *)
Inductive PyVal :=
| VNone
| VBool (b : bool)
| VInt (z : Z)
| VStr (s : string)
| VFile (name : option string)
| VFunc (f : string)
| VClass (c : string)
| VObj (o : string).

#[global] Instance PyVal_eq_dec : EqDecision PyVal.
Proof. solve_decision. Defined.

(** [bool(v)]: [None], [False], [0] and the empty string are falsy; a
    [FieldFile] is truthy exactly when its name is (its [__nonzero__]
    returns [bool(self.name)]); every other object is truthy. *)
Definition truthy (v : PyVal) : bool :=
  match v with
  | VNone => false
  | VBool b => b
  | VInt z => negb (z =? 0)%Z
  | VStr s => negb (String.eqb s "")
  | VFile (Some n) => negb (String.eqb n "")
  | VFile None => false
  | VFunc _ | VClass _ | VObj _ => true
  end.

(** [v == s] for a string literal [s]. A [FieldFile] compares by its name
    ([FieldFile.__eq__]); numbers, booleans and [None] never equal a
    string. *)
Definition eq_str (v : PyVal) (s : string) : bool :=
  match v with
  | VStr s' => String.eqb s' s
  | VFile (Some n) => String.eqb n s
  | _ => false
  end.

(** [v is None]. *)
Definition is_None (v : PyVal) : bool :=
  match v with VNone => true | _ => false end.

(** [callable(v)]. *)
Definition callable (v : PyVal) : bool :=
  match v with VFunc _ | VClass _ => true | _ => false end.

(** ** Exceptions *)

Inductive Exn :=
| ValueError
| TypeError (arg : string)
| KeyError (key : string)
| AttributeError (attr : string)
| ImproperlyConfigured (cls_name : string)
| FieldDoesNotExist (field_name : string)
| HostError (msg : string).

Inductive Result (A : Type) :=
| Ok (a : A)
| Raise (e : Exn).
Arguments Ok {A} a.
Arguments Raise {A} e.

#[global] Instance Result_ret : MRet Result := fun A a => Ok a.
#[global] Instance Result_bind : MBind Result := fun A B f m =>
  match m with
  | Ok a => f a
  | Raise e => Raise e
  end.

Definition raises {A} (m : Result A) : Prop :=
  match m with Ok _ => False | Raise _ => True end.

Definition returns {A} (m : Result A) : Prop :=
  match m with Ok _ => True | Raise _ => False end.

(** ** Model instances *)

(** A model instance is its [__dict__]. The attribute names this module
    passes to [hasattr], [getattr] and [setattr] are names of shadow
    fields; Django keeps the value of a plain field in the instance
    [__dict__] under the field's attname and installs no class attribute
    for it, so on these names the three builtins act on [__dict__]. *)
Record Instance := mkInstance { __dict__ : gmap string PyVal }.

Definition hasattr (instance : Instance) (attr : string) : bool :=
  bool_decide (is_Some (__dict__ instance !! attr)).

Definition getattr (instance : Instance) (attr : string) : Result PyVal :=
  match __dict__ instance !! attr with
  | Some v => Ok v
  | None => Raise (AttributeError attr)
  end.

Definition setattr (instance : Instance) (attr : string) (value : PyVal)
  : Instance :=
  mkInstance (<[attr := value]> (__dict__ instance)).

(** [instance.__dict__[key]] *)
Definition dict_getitem (instance : Instance) (key : string) : Result PyVal :=
  match __dict__ instance !! key with
  | Some v => Ok v
  | None => Raise (KeyError key)
  end.

(** [instance.__dict__[key] = value] *)
Definition dict_setitem (instance : Instance) (key : string) (value : PyVal)
  : Instance :=
  mkInstance (<[key := value]> (__dict__ instance)).

(** ** Settings and ambient state *)

(** The constants [from modeltranslation.settings import *] brings in. *)
Record Settings := mkSettings {
  DEFAULT_LANGUAGE : string;
  CUSTOM_FIELDS : list string;
  LANGUAGES : list string;
}.

(** The ambient request/locale state. *)
Record Locale := mkLocale { active_language : string }.

(** Modelled from the spec: [modeltranslation.utils.get_language] is not
    in src. "The active language is read from ambient request/locale
    state". *)
Definition get_language (st : Locale) : string := active_language st.

(** Modelled from the spec: [modeltranslation.utils.build_localized_fieldname]
    is not in src. A declared field "title" becomes the storage columns
    "title_en" and "title_de": the field name, an underscore, the
    language. *)
Definition build_localized_fieldname (field_name lang : string) : string :=
  field_name +:+ "_" +:+ lang.

(** Modelled from the spec: [modeltranslation.utils.build_localized_verbose_name]
    is not in src. The verbose name is copied and a language suffix is
    appended; the suffix is the language between brackets. *)
Definition build_localized_verbose_name (verbose_name lang : string) : string :=
  verbose_name +:+ " [" +:+ lang +:+ "]".

(** ** The descriptor of the original attribute *)

Module TranslationFieldDescriptor.

Record t := mk {
  name : string;
  val : PyVal;
  fallback_value : PyVal;
}.

(** [__init__(self, name, initial_val="", fallback_value=None)] *)
Definition __init__ (name : string) (initial_val : option PyVal)
    (fallback_value : option PyVal) : t :=
  {| name := name;
     val := default (VStr "") initial_val;
     fallback_value := default VNone fallback_value |}.

Definition __set__ (self : t) (st : Locale) (instance : Instance)
    (value : PyVal) : Instance :=
  let lang := get_language st in
  let loc_field_name := build_localized_fieldname (name self) lang in
  let instance := setattr instance loc_field_name value in
  dict_setitem instance (name self) value.

Definition get_default_instance (self : t) (instance : Instance)
  : Result PyVal :=
  dict_getitem instance (name self).

(** [instance] is [None] when the attribute is read on the class. A
    model instance is always truthy. Falling off the end of the method
    returns [None]. *)
Definition __get__ (self : t) (st : Locale) (instance : option Instance)
  : Result PyVal :=
  match instance with
  | None => Raise ValueError
  | Some instance =>
    let loc_field_name :=
      build_localized_fieldname (name self) (get_language st) in
    if hasattr instance loc_field_name then
      v ← getattr instance loc_field_name;
      if truthy v then getattr instance loc_field_name
      else if is_None (fallback_value self)
           then get_default_instance self instance
           else Ok (fallback_value self)
    else Ok VNone
  end.

End TranslationFieldDescriptor.

(** ** Fields of the host framework *)

(** The Django field classes this module tests with [isinstance].
    [BaseField] stands for [django.db.models.fields.Field] itself. *)
Inductive FieldBase := BaseField | CharField | TextField | FileField | ImageField.

#[global] Instance FieldBase_eq_dec : EqDecision FieldBase.
Proof. solve_decision. Defined.

(** [issubclass]: every class derives from [Field], and [ImageField]
    derives from [FileField]. *)
Definition issubclass (c base : FieldBase) : bool :=
  match base, c with
  | BaseField, _ => true
  | FileField, (FileField | ImageField) => true
  | _, _ => bool_decide (c = base)
  end.

(** The class of a field: its [__name__] and the most derived of the
    Django classes above it inherits from. *)
Record FieldClass := mkFieldClass {
  __name__ : string;
  django_base : FieldBase;
}.

(** The [__dict__] of a field: the attributes this module reads or
    writes, and the remaining ones by name. *)
Record FieldDict := mkFieldDict {
  name : string;
  attname : string;
  verbose_name : string;
  null : bool;
  blank : bool;
  attrs : gmap string PyVal;
}.

Record Field := mkField {
  __class__ : FieldClass;
  field_dict : FieldDict;
}.

Definition isinstance (field : Field) (bases : list FieldBase) : bool :=
  existsb (issubclass (django_base (__class__ field))) bases.
Arguments isinstance : simpl never.

(** A model class, as far as [model._meta.get_field] sees it: the list of
    its fields. *)
Record Model := mkModel { _meta_fields : list Field }.

(** Django's [Options.get_field]: the first field of that name, or
    [FieldDoesNotExist]. *)
Fixpoint find_field (fields : list Field) (field_name : string) : Result Field :=
  match fields with
  | [] => Raise (FieldDoesNotExist field_name)
  | f :: fields =>
    if String.eqb (name (field_dict f)) field_name then Ok f
    else find_field fields field_name
  end.

Definition get_field (model : Model) (field_name : string) : Result Field :=
  find_field (_meta_fields model) field_name.

(** The three wrapping classes of this module. *)
Inductive TranslationClass :=
| TranslationField_class
| TranslationFileField_class
| TranslationImageField_class.

#[global] Instance TranslationClass_eq_dec : EqDecision TranslationClass.
Proof. solve_decision. Defined.

(** A translation field object: its class, its own [__dict__], and the
    two attributes [_post_init] stores first. *)
Record Translation := mkTranslation {
  t_class : TranslationClass;
  translated_field : Field;
  language : string;
  t_dict : FieldDict;
}.

Record Widget := mkWidget { widget_type : string }.

Record FormField := mkFormField { widget : Widget }.

(** [type(w)] of a widget. *)
Definition type_of (w : Widget) : PyVal := VClass (widget_type w).

(** What this module calls in the host framework: the methods of the
    wrapped field (dispatched on its class by Django), the methods of the
    base class reached through [super], and the default storage. *)
Class Django := {
  Field_get_prep_value : Field → PyVal → Result PyVal;
  Field_get_prep_lookup : Field → string → PyVal → Result PyVal;
  Field_to_python : Field → PyVal → Result PyVal;
  Field_get_internal_type : Field → string;
  Field_formfield : Field → list PyVal → gmap string PyVal → Result FormField;
  super_pre_save : Translation → Instance → bool → Result (PyVal * Instance);
  super_formfield : Translation → list PyVal → gmap string PyVal → Result FormField;
  default_storage : PyVal;
}.

(** ** TranslationField *)

Module TranslationField.
Section methods.
Context `{Django} (settings : Settings).

(** [self] is the [__dict__] built so far; the result is the finished
    object. *)
Definition _post_init (cls : TranslationClass) (self : FieldDict)
    (translated_field : Field) (language : string) : Translation :=
  let attname :=
    build_localized_fieldname (name (field_dict translated_field)) language in
  {| t_class := cls;
     translated_field := translated_field;
     language := language;
     t_dict :=
       {| null := true;
          blank := true;
          attname := attname;
          name := attname;
          verbose_name :=
            build_localized_verbose_name
              (verbose_name (field_dict translated_field)) language;
          attrs := attrs self |} |}.

(** [self.__dict__.update(translated_field.__dict__)] on the fresh
    object, then [_post_init]. *)
Definition __init__ (translated_field : Field) (language : string)
  : Translation :=
  let self := field_dict translated_field in
  _post_init TranslationField_class self translated_field language.

Definition pre_save (self : Translation) (model_instance : Instance)
    (add : bool) : Result (PyVal * Instance) :=
  '(val, model_instance) ← super_pre_save self model_instance add;
  if String.eqb (DEFAULT_LANGUAGE settings) (language self) && negb add
  then
    Ok (val, dict_setitem model_instance
               (attname (field_dict (translated_field self))) val)
  else Ok (val, model_instance).

Definition get_prep_value (self : Translation) (value : PyVal)
  : Result PyVal :=
  let value := if eq_str value "" then VNone else value in
  Field_get_prep_value (translated_field self) value.

Definition get_prep_lookup (self : Translation) (lookup_type : string)
    (value : PyVal) : Result PyVal :=
  Field_get_prep_lookup (translated_field self) lookup_type value.

Definition to_python (self : Translation) (value : PyVal) : Result PyVal :=
  Field_to_python (translated_field self) value.

Definition get_internal_type (self : Translation) : string :=
  Field_get_internal_type (translated_field self).

(** [defaults.update(kwargs)]: the caller's keyword arguments win over
    the default widget. *)
Definition formfield (self : Translation) (args : list PyVal)
    (kwargs : gmap string PyVal) : Result FormField :=
  trans_formfield ← Field_formfield (translated_field self) args kwargs;
  let defaults : gmap string PyVal :=
    {[ "widget" := type_of (widget trans_formfield) ]} in
  let defaults := kwargs ∪ defaults in
  super_formfield self args defaults.

End methods.
End TranslationField.

(** ** TranslationFileField and TranslationImageField *)

Module TranslationFileField.
Section methods.
Context `{Django} (settings : Settings).

Definition _post_init (cls : TranslationClass) (self : FieldDict)
    (translated_field : Field) (language : string) : Translation :=
  let attname :=
    build_localized_fieldname (name (field_dict translated_field)) language in
  {| t_class := cls;
     translated_field := translated_field;
     language := language;
     t_dict :=
       {| null := true;
          blank := true;
          attname := attname;
          name := attname;
          verbose_name :=
            build_localized_verbose_name
              (verbose_name (field_dict translated_field)) language;
          attrs := attrs self |} |}.

Definition set_attr (self : FieldDict) (attr : string) (value : PyVal)
  : FieldDict :=
  {| name := name self; attname := attname self;
     verbose_name := verbose_name self;
     null := null self; blank := blank self;
     attrs := <[attr := value]> (attrs self) |}.

(** [cls] is the class being instantiated ([TranslationImageField]
    inherits this constructor). [kwargs] are the keyword arguments
    other than [translated_field] and [language]. *)
Definition __init__ (cls : TranslationClass) (translated_field : Field)
    (language : string) (kwargs : gmap string PyVal) : Result Translation :=
  let self := field_dict translated_field in
  if bool_decide (is_Some (kwargs !! "primary_key"))
  then Raise (TypeError "primary_key")
  else if bool_decide (is_Some (kwargs !! "unique"))
  then Raise (TypeError "unique")
  else
    let self :=
      set_attr self "storage" (default default_storage (kwargs !! "storage")) in
    match attrs (field_dict translated_field) !! "upload_to" with
    | None => Raise (KeyError "upload_to")
    | Some upload_to =>
      let self := set_attr self "upload_to" upload_to in
      let self :=
        if callable upload_to
        then set_attr self "generate_filename" upload_to
        else self in
      Ok (_post_init cls self translated_field language)
    end.

Definition pre_save (self : Translation) (model_instance : Instance)
    (add : bool) : Result (PyVal * Instance) :=
  '(val, model_instance) ← super_pre_save self model_instance add;
  if String.eqb (DEFAULT_LANGUAGE settings) (language self) && negb add
  then
    Ok (val, dict_setitem model_instance
               (attname (field_dict (translated_field self))) val)
  else Ok (val, model_instance).

Definition get_prep_value (self : Translation) (value : PyVal)
  : Result PyVal :=
  if eq_str value "" || is_None value then Ok VNone
  else Field_get_prep_value (translated_field self) value.

Definition get_prep_lookup (self : Translation) (lookup_type : string)
    (value : PyVal) : Result PyVal :=
  Field_get_prep_lookup (translated_field self) lookup_type value.

Definition to_python (self : Translation) (value : PyVal) : Result PyVal :=
  Field_to_python (translated_field self) value.

Definition get_internal_type (self : Translation) : string :=
  Field_get_internal_type (translated_field self).

Definition formfield (self : Translation) (args : list PyVal)
    (kwargs : gmap string PyVal) : Result FormField :=
  trans_formfield ← Field_formfield (translated_field self) args kwargs;
  let defaults : gmap string PyVal :=
    {[ "widget" := type_of (widget trans_formfield) ]} in
  let defaults := kwargs ∪ defaults in
  super_formfield self args defaults.

End methods.
End TranslationFileField.

(** ** The field factory *)

Section factory.
Context `{Django} (settings : Settings).

Definition create_translation_field (model : Model) (field_name : string)
    (lang : string) : Result Translation :=
  field ← get_field model field_name;
  let cls_name := __name__ (__class__ field) in
  if negb (isinstance field [CharField; TextField; FileField; ImageField]
           || bool_decide (cls_name ∈ CUSTOM_FIELDS settings))
  then Raise (ImproperlyConfigured cls_name)
  else if isinstance field [ImageField]
  then TranslationFileField.__init__ TranslationImageField_class field lang ∅
  else if isinstance field [FileField]
  then TranslationFileField.__init__ TranslationFileField_class field lang ∅
  else Ok (TranslationField.__init__ field lang).

(** Modelled from the spec: the patching loop of
    [modeltranslation/translator.py] is not in src. "Every model
    registered with the translator is patched to contain additional
    localized versions for every field specified in the model's
    translation options": one call of the factory per registered field
    and per configured language, in order. *)
Fixpoint localized_versions (model : Model) (field_name : string)
    (langs : list string) : Result (list Translation) :=
  match langs with
  | [] => Ok []
  | l :: langs =>
    t ← create_translation_field model field_name l;
    ts ← localized_versions model field_name langs;
    Ok (t :: ts)
  end.

Fixpoint add_translation_fields (model : Model) (fields : list string)
  : Result (list Translation) :=
  match fields with
  | [] => Ok []
  | field_name :: fields =>
    ts ← localized_versions model field_name (LANGUAGES settings);
    rest ← add_translation_fields model fields;
    Ok (ts ++ rest)%list
  end.

End factory.

(** The declared field and the language a shadow column was generated
    from. *)
Definition shadow_of (column : Translation) : string * string :=
  (name (field_dict (translated_field column)), language column).

(** ** A concrete host and a sample model *)

(** Django's base [Field] behaviour, enough to run the definitions above:
    [Field.pre_save] returns [getattr(model_instance, self.attname)];
    [get_prep_value], [get_prep_lookup] and [to_python] hand the value
    back; [get_internal_type] is the class name; [formfield] builds a form
    field whose widget is the [widget] keyword argument when one is given
    and the class's own widget otherwise. *)
Definition widget_of_kwargs (kwargs : gmap string PyVal) (own : string)
  : Widget :=
  match kwargs !! "widget" with
  | Some (VClass c) => mkWidget c
  | _ => mkWidget own
  end.

Definition own_widget (field : Field) : string :=
  match django_base (__class__ field) with
  | TextField => "Textarea"
  | FileField | ImageField => "ClearableFileInput"
  | _ => "TextInput"
  end.

#[global] Instance plain_django : Django := {|
  Field_get_prep_value := fun _ value => Ok value;
  Field_get_prep_lookup := fun _ _ value => Ok value;
  Field_to_python := fun _ value => Ok value;
  Field_get_internal_type := fun field => __name__ (__class__ field);
  Field_formfield := fun field _ kwargs =>
    Ok (mkFormField (widget_of_kwargs kwargs (own_widget field)));
  super_pre_save := fun self model_instance _ =>
    val ← getattr model_instance (attname (t_dict self));
    Ok (val, model_instance);
  super_formfield := fun _ _ kwargs =>
    Ok (mkFormField (widget_of_kwargs kwargs "TextInput"));
  default_storage := VObj "default_storage";
|}.

Definition plain_field (cls : string) (base : FieldBase) (name : string)
    (attrs : gmap string PyVal) : Field :=
  {| __class__ := mkFieldClass cls base;
     field_dict :=
       {| name := name; attname := name; verbose_name := name;
          null := false; blank := false; attrs := attrs |} |}.

(** A [News] model with a title, a body, an attachment, a picture and a
    counter; English is the default language, German the second one. *)
Definition title_field : Field :=
  plain_field "CharField" CharField "title" {[ "max_length" := VInt 255 ]}.
Definition text_field : Field :=
  plain_field "TextField" TextField "text" ∅.
Definition file_field : Field :=
  plain_field "FileField" FileField "attachment"
    {[ "upload_to" := VStr "files" ]}.
Definition image_field : Field :=
  plain_field "ImageField" ImageField "picture"
    {[ "upload_to" := VFunc "picture_path" ]}.
Definition visits_field : Field :=
  plain_field "IntegerField" BaseField "visits" ∅.

Definition News : Model :=
  mkModel [title_field; text_field; file_field; image_field; visits_field].

Definition en_de : Settings :=
  {| DEFAULT_LANGUAGE := "en"; CUSTOM_FIELDS := []; LANGUAGES := ["en"; "de"] |}.

Definition title_descriptor : TranslationFieldDescriptor.t :=
  TranslationFieldDescriptor.__init__ "title" None None.

Definition title_descriptor_with_fallback : TranslationFieldDescriptor.t :=
  TranslationFieldDescriptor.__init__ "title" None (Some (VStr "n/a")).

(** A stored news item whose title is translated in both languages. *)
Definition hello_news : Instance :=
  mkInstance {[ "title" := VStr "Hello";
                "title_en" := VStr "Hello";
                "title_de" := VStr "Hallo" ]}.

(** A news item about to be inserted: only the English title is set. *)
Definition fresh_news : Instance :=
  mkInstance {[ "title" := VStr "";
                "title_en" := VStr "Hi";
                "title_de" := VNone ]}.

(** The English and German shadow fields of the title. *)
Definition title_en : Translation := TranslationField.__init__ title_field "en".
Definition title_de : Translation := TranslationField.__init__ title_field "de".

(** A news item whose original column was never filled: only the empty
    German shadow field is there. *)
Definition orphan_news : Instance :=
  mkInstance {[ "title_de" := VStr "" ]}.

(** A file field that lost its [upload_to], in a model of its own. *)
Definition scan_field : Field :=
  plain_field "FileField" FileField "scan" ∅.

Definition Archive : Model := mkModel [scan_field].

Definition en_de_custom : Settings :=
  {| DEFAULT_LANGUAGE := "en"; CUSTOM_FIELDS := ["IntegerField"];
     LANGUAGES := ["en"; "de"] |}.

Definition en_de_custom_more : Settings :=
  {| DEFAULT_LANGUAGE := "de"; CUSTOM_FIELDS := ["MoneyField"; "IntegerField"];
     LANGUAGES := ["de"] |}.

(** ** The descriptor of the original attribute of a file field *)

Module TranslationFileDescriptor.

(** A [django.core.files.File] that is not a [FieldFile]; only its name
    is read here. *)
Record File := mkFile { file_name : option string }.

(** The state of a [FieldFile] object. [ff_field] is the field the object
    is bound to: [attr_class(instance, field, name)] sets the attributes
    [instance], [field] and [storage] together, and a [FieldFile] that
    was unpickled has none of them. The instance it points back to is the
    one being read. *)
Record FieldFile := mkFieldFile {
  ff_name : option string;
  ff_field : option string;
  ff_file : option File;
  ff_committed : bool;
}.

(** What a slot of [instance.__dict__] or a fallback value can hold.
    [FieldFile] objects are mutated in place and can be shared between
    slots, so a slot holds a reference to one. *)
Inductive FileVal :=
| FNone
| FStr (s : string)
| FRaw (f : File)
| FRef (l : nat)
| FOther (o : string).

#[global] Instance File_eq_dec : EqDecision File.
Proof. solve_decision. Defined.
#[global] Instance FieldFile_eq_dec : EqDecision FieldFile.
Proof. solve_decision. Defined.
#[global] Instance FileVal_eq_dec : EqDecision FileVal.
Proof. solve_decision. Defined.

(** A model instance with file fields: the names under which the model
    class carries Django's [FileDescriptor] (one per [FileField] of the
    model, so one per file shadow field), the [FieldFile] objects, and
    [instance.__dict__]. *)
Record FileInstance := mkFileInstance {
  file_descriptors : gset string;
  objects : gmap nat FieldFile;
  file_dict : gmap string FileVal;
}.

Inductive Raised :=
| Builtin (e : Exn)
| UnboundLocalError (var : string).

Inductive Outcome (A : Type) :=
| Return (a : A)
| Throw (e : Raised).
Arguments Return {A} a.
Arguments Throw {A} e.

#[global] Instance Outcome_ret : MRet Outcome := fun A a => Return a.
#[global] Instance Outcome_bind : MBind Outcome := fun A B f m =>
  match m with
  | Return a => f a
  | Throw e => Throw e
  end.

Definition name_truthy (name : option string) : bool :=
  match name with
  | Some s => negb (String.eqb s "")
  | None => false
  end.

(** [bool(v)]: [File.__nonzero__] is [bool(self.name)]. *)
Definition truthy (instance : FileInstance) (v : FileVal) : bool :=
  match v with
  | FNone => false
  | FStr s => negb (String.eqb s "")
  | FRaw f => name_truthy (file_name f)
  | FRef l =>
    match objects instance !! l with
    | Some ff => name_truthy (ff_name ff)
    | None => true
    end
  | FOther _ => true
  end.

Definition is_None (v : FileVal) : bool :=
  match v with FNone => true | _ => false end.

Definition dict_getitem (instance : FileInstance) (key : string)
  : Outcome FileVal :=
  match file_dict instance !! key with
  | Some v => Return v
  | None => Throw (Builtin (KeyError key))
  end.

Definition dict_setitem (instance : FileInstance) (key : string)
    (value : FileVal) : FileInstance :=
  mkFileInstance (file_descriptors instance) (objects instance)
    (<[key := value]> (file_dict instance)).

Definition set_object (instance : FileInstance) (l : nat) (ff : FieldFile)
  : FileInstance :=
  mkFileInstance (file_descriptors instance)
    (<[l := ff]> (objects instance)) (file_dict instance).

(** [field.attr_class(instance, field, name)]: a new [FieldFile], bound
    and committed. *)
Definition attr_class (instance : FileInstance) (field : string)
    (name : option string) : nat * FileInstance :=
  let l := fresh (dom (objects instance)) in
  (l, set_object instance l
        {| ff_name := name; ff_field := Some field;
           ff_file := None; ff_committed := true |}).

(** The [if]/[elif]/[elif] chain on [file] that ends [__get__] (the same
    chain ends the [__get__] of Django's [FileDescriptor]): a string or
    [None] is wrapped in a new [FieldFile] stored under [field_name]; a
    plain [File] is copied into a new uncommitted [FieldFile] stored
    under [field_name]; a [FieldFile] without a [field] attribute is
    bound in place; anything else is left alone. *)
Definition wrap (instance : FileInstance) (field field_name : string)
    (file : FileVal) : FileInstance :=
  match file with
  | FStr s =>
    let '(attr, instance) := attr_class instance field (Some s) in
    dict_setitem instance field_name (FRef attr)
  | FNone =>
    let '(attr, instance) := attr_class instance field None in
    dict_setitem instance field_name (FRef attr)
  | FRaw f =>
    let '(file_copy, instance) := attr_class instance field (file_name f) in
    let instance :=
      set_object instance file_copy
        {| ff_name := file_name f; ff_field := Some field;
           ff_file := Some f; ff_committed := false |} in
    dict_setitem instance field_name (FRef file_copy)
  | FRef l =>
    match objects instance !! l with
    | Some ff =>
      match ff_field ff with
      | None =>
        set_object instance l
          {| ff_name := ff_name ff; ff_field := Some field;
             ff_file := ff_file ff; ff_committed := ff_committed ff |}
      | Some _ => instance
      end
    | None => instance
    end
  | FOther _ => instance
  end.

(** Django's [FileDescriptor.__get__] for the field named [field]: the
    slot of that name is read, the chain above is applied to it, and the
    slot is returned. *)
Definition FileDescriptor_get (instance : FileInstance) (field : string)
  : Outcome (FileVal * FileInstance) :=
  file ← dict_getitem instance field;
  let instance := wrap instance field field file in
  v ← dict_getitem instance field;
  Return (v, instance).

(** [getattr(instance, attr)]: through Django's descriptor when the class
    has one under that name, from [instance.__dict__] otherwise. *)
Definition getattr (instance : FileInstance) (attr : string)
  : Outcome (FileVal * FileInstance) :=
  if bool_decide (attr ∈ file_descriptors instance)
  then FileDescriptor_get instance attr
  else match file_dict instance !! attr with
       | Some v => Return (v, instance)
       | None => Throw (Builtin (AttributeError attr))
       end.

(** Python 2's [hasattr]: [getattr] with every exception caught; what
    [getattr] did to the instance stays done. *)
Definition hasattr (instance : FileInstance) (attr : string)
  : bool * FileInstance :=
  match getattr instance attr with
  | Return (_, instance) => (true, instance)
  | Throw _ => (false, instance)
  end.

(** [setattr(instance, attr, value)]: Django's [FileDescriptor.__set__]
    stores the value in [instance.__dict__], as a plain attribute does. *)
Definition setattr (instance : FileInstance) (attr : string) (value : FileVal)
  : FileInstance :=
  dict_setitem instance attr value.

(** [field] is the wrapped file field, known by its name. *)
Record t := mk {
  field : string;
  name : string;
  val : FileVal;
  fallback_value : FileVal;
}.

(** [__init__(self, field, name, initial_val="", fallback_value=None)] *)
Definition __init__ (field name : string) (initial_val : option FileVal)
    (fallback_value : option FileVal) : t :=
  {| field := field;
     name := name;
     val := default (FStr "") initial_val;
     fallback_value := default FNone fallback_value |}.

Definition __set__ (self : t) (st : Locale) (instance : FileInstance)
    (value : FileVal) : FileInstance :=
  let lang := get_language st in
  let loc_field_name := build_localized_fieldname (name self) lang in
  let instance := setattr instance loc_field_name value in
  dict_setitem instance (name self) value.

Definition get_default_instance (self : t) (instance : FileInstance)
  : Outcome FileVal :=
  dict_getitem instance (name self).

(** [instance] is [None] when the attribute is read on the class:
    [hasattr(None, ...)] is false and the [AttributeError] is raised.
    On an instance without the localized attribute the name [file] is
    never assigned, and its first use raises [UnboundLocalError]. *)
Definition __get__ (self : t) (st : Locale) (instance : option FileInstance)
  : Outcome (FileVal * FileInstance) :=
  let field_name := name self in
  let loc_field_name :=
    build_localized_fieldname (name self) (get_language st) in
  match instance with
  | None => Throw (Builtin (AttributeError field_name))
  | Some instance =>
    let '(present, instance) := hasattr instance loc_field_name in
    if present then
      '(localized, instance) ← getattr instance loc_field_name;
      '(file, field_name) ←
        (if truthy instance localized then
           file ← dict_getitem instance loc_field_name;
           Return (file, loc_field_name)
         else if is_None (fallback_value self) then
           file ← get_default_instance self instance;
           Return (file, field_name)
         else Return (fallback_value self, field_name));
      let instance := wrap instance (field self) field_name file in
      v ← dict_getitem instance field_name;
      Return (v, instance)
    else Throw (UnboundLocalError "file")
  end.

End TranslationFileDescriptor.

(** A stored report with an English attachment and no German one; the
    model class has Django's descriptor on both shadow fields. *)
Definition report : TranslationFileDescriptor.FileInstance :=
  TranslationFileDescriptor.mkFileInstance
    {[ "attachment_en"; "attachment_de" ]}
    ∅
    {[ "attachment" := TranslationFileDescriptor.FStr "files/report.pdf";
       "attachment_en" := TranslationFileDescriptor.FStr "files/report.pdf";
       "attachment_de" := TranslationFileDescriptor.FStr "" ]}.

Definition attachment_descriptor : TranslationFileDescriptor.t :=
  TranslationFileDescriptor.__init__ "attachment" "attachment" None None.

Definition attachment_descriptor_with_fallback : TranslationFileDescriptor.t :=
  TranslationFileDescriptor.__init__ "attachment" "attachment" None
    (Some (TranslationFileDescriptor.FStr "files/missing.pdf")).

(** ** Auxiliary facts *)

Lemma append_length (s1 s2 : string) :
  String.length (s1 +:+ s2) = String.length s1 + String.length s2.
Proof. induction s1 as [|c s1 IH]; simpl; [done | by rewrite IH]. Qed.

Lemma append_inj_r (s a b : string) : s +:+ a = s +:+ b → a = b.
Proof.
  induction s as [|c s IH]; simpl; [done |].
  intros Heq. apply IH. by injection Heq.
Qed.

Lemma build_localized_fieldname_inj (field_name l1 l2 : string) :
  build_localized_fieldname field_name l1
  = build_localized_fieldname field_name l2 → l1 = l2.
Proof.
  unfold build_localized_fieldname. intros Heq.
  apply append_inj_r in Heq. by apply (append_inj_r "_").
Qed.

Lemma build_localized_fieldname_fresh (field_name lang : string) :
  build_localized_fieldname field_name lang ≠ field_name.
Proof.
  unfold build_localized_fieldname. intros Heq.
  apply (f_equal String.length) in Heq.
  rewrite append_length in Heq. simpl in Heq. lia.
Qed.

Lemma hasattr_true (instance : Instance) (attr : string) (v : PyVal) :
  __dict__ instance !! attr = Some v → hasattr instance attr = true.
Proof. intros Hv. unfold hasattr. apply bool_decide_eq_true. eauto. Qed.

Lemma getattr_Some (instance : Instance) (attr : string) (v : PyVal) :
  __dict__ instance !! attr = Some v → getattr instance attr = Ok v.
Proof. intros Hv. unfold getattr. by rewrite Hv. Qed.

Section descriptor_facts.
Import TranslationFieldDescriptor.
Variables (self : t) (st : Locale) (instance : Instance) (value : PyVal).

Let loc_field_name := build_localized_fieldname (name self) (get_language st).

Lemma set_dict :
  __dict__ (__set__ self st instance value)
  = <[name self := value]> (<[loc_field_name := value]> (__dict__ instance)).
Proof. reflexivity. Qed.

Lemma set_lookup_original :
  __dict__ (__set__ self st instance value) !! name self = Some value.
Proof. rewrite set_dict. apply lookup_insert_eq. Qed.

Lemma set_lookup_localized :
  __dict__ (__set__ self st instance value) !! loc_field_name = Some value.
Proof.
  rewrite set_dict, lookup_insert_ne, lookup_insert_eq; [done |].
  intros Heq. symmetry in Heq.
  by apply build_localized_fieldname_fresh in Heq.
Qed.

Lemma set_lookup_other (key : string) :
  key ≠ name self → key ≠ loc_field_name →
  __dict__ (__set__ self st instance value) !! key = __dict__ instance !! key.
Proof.
  intros Hn Hl. rewrite set_dict.
  by rewrite !lookup_insert_ne.
Qed.

(** What [__get__] does once the localized attribute exists. *)
Lemma get_present (v : PyVal) :
  __dict__ instance !! loc_field_name = Some v →
  __get__ self st (Some instance)
  = if truthy v then Ok v
    else if is_None (fallback_value self)
         then get_default_instance self instance
         else Ok (fallback_value self).
Proof.
  intros Hv. unfold __get__. fold loc_field_name.
  rewrite (hasattr_true _ _ _ Hv), (getattr_Some _ _ _ Hv). simpl.
  by destruct (truthy v).
Qed.

Lemma get_absent :
  __dict__ instance !! loc_field_name = None →
  __get__ self st (Some instance) = Ok VNone.
Proof.
  intros Hv. unfold __get__, hasattr. fold loc_field_name.
  rewrite Hv. rewrite bool_decide_eq_false_2; [done |].
  by intros [? ?].
Qed.

End descriptor_facts.

(** ** The descriptor: reading and writing the original attribute *)

Section descriptor_claims.
Import TranslationFieldDescriptor.

(** C1 (as stated, refuted). After a German editor clears the title of
    [hello_news] through the original attribute, the German shadow field
    exists and is falsy and no fallback value is configured, yet reading
    the original attribute under German yields the cleared value, not the
    value "Hello" of the shadow field of the default language. *)
Lemma C1_default_shadow_counterexample :
  let instance := __set__ title_descriptor (mkLocale "de") hello_news (VStr "") in
  __dict__ instance !! build_localized_fieldname "title" "de" = Some (VStr "")
  ∧ truthy (VStr "") = false
  ∧ fallback_value title_descriptor = VNone
  ∧ getattr instance
      (build_localized_fieldname "title" (DEFAULT_LANGUAGE en_de))
    = Ok (VStr "Hello")
  ∧ __get__ title_descriptor (mkLocale "de") (Some instance) = Ok (VStr "")
  ∧ __get__ title_descriptor (mkLocale "de") (Some instance)
    ≠ getattr instance
        (build_localized_fieldname "title" (DEFAULT_LANGUAGE en_de)).
Proof. vm_compute. repeat split; congruence. Qed.

(** C1 (amended). When the shadow field of the active language exists on
    the instance with a falsy value and no fallback value is configured,
    [__get__] returns what [get_default_instance] returns: the value
    stored in the original field's own slot of [instance.__dict__], and
    [KeyError] when that slot is empty. This is the value of the default
    language's shadow field whenever the original slot is filled and
    mirrors that shadow field. *)
Theorem C1_get_falls_back_to_original_slot
    (settings : Settings) (self : t) (st : Locale) (instance : Instance)
    (v : PyVal) :
  __dict__ instance !! build_localized_fieldname (name self) (get_language st)
    = Some v →
  truthy v = false →
  fallback_value self = VNone →
  __get__ self st (Some instance) = get_default_instance self instance
  ∧ __get__ self st (Some instance)
    = match __dict__ instance !! name self with
      | Some original => Ok original
      | None => Raise (KeyError (name self))
      end
  ∧ (is_Some (__dict__ instance !! name self) →
     __dict__ instance !! name self
     = __dict__ instance
       !! build_localized_fieldname (name self) (DEFAULT_LANGUAGE settings) →
     __get__ self st (Some instance)
     = getattr instance
         (build_localized_fieldname (name self) (DEFAULT_LANGUAGE settings))).
Proof.
  intros Hloc Hfalsy Hfb.
  rewrite (get_present _ _ _ _ Hloc), Hfalsy, Hfb. simpl.
  split; [reflexivity |]. split; [reflexivity |].
  intros [original Horiginal] Hmirror.
  unfold get_default_instance, dict_getitem, getattr.
  by rewrite <- Hmirror, Horiginal.
Qed.

Lemma C1_get_falls_back_witness :
  let instance := setattr hello_news "title_de" (VStr "") in
  __dict__ instance !! build_localized_fieldname "title" "de" = Some (VStr "")
  ∧ truthy (VStr "") = false
  ∧ fallback_value title_descriptor = VNone
  ∧ is_Some (__dict__ instance !! "title")
  ∧ __dict__ instance !! "title"
    = __dict__ instance
      !! build_localized_fieldname "title" (DEFAULT_LANGUAGE en_de)
  ∧ __get__ title_descriptor (mkLocale "de") (Some instance)
    = getattr instance
        (build_localized_fieldname "title" (DEFAULT_LANGUAGE en_de))
  ∧ __get__ title_descriptor (mkLocale "de") (Some instance)
    = Ok (VStr "Hello").
Proof.
  intros instance.
  assert (Hloc : __dict__ instance
                 !! build_localized_fieldname (name title_descriptor)
                      (get_language (mkLocale "de")) = Some (VStr ""))
    by (vm_compute; reflexivity).
  assert (Hfilled : is_Some (__dict__ instance !! name title_descriptor))
    by (exists (VStr "Hello"); vm_compute; reflexivity).
  assert (Hmirror : __dict__ instance !! name title_descriptor
                    = __dict__ instance
                      !! build_localized_fieldname (name title_descriptor)
                           (DEFAULT_LANGUAGE en_de))
    by (vm_compute; reflexivity).
  destruct (C1_get_falls_back_to_original_slot en_de title_descriptor
              (mkLocale "de") instance (VStr "") Hloc eq_refl eq_refl)
    as (_ & Hslot & Hdefault).
  split; [exact Hloc |].
  split; [reflexivity |]. split; [reflexivity |].
  split; [exact Hfilled |]. split; [exact Hmirror |].
  split; [exact (Hdefault Hfilled Hmirror) |].
  exact (eq_trans Hslot eq_refl).
Defined.

(** C2. Assigning [value] to the original attribute performs
    [setattr(instance, build_localized_fieldname(name, get_language()), value)]
    and then stores [value] under the original name in
    [instance.__dict__]: afterwards both the shadow field of the active
    language and the original slot hold [value]. *)
Theorem C2_set_redirects_and_stores
    (self : t) (st : Locale) (instance : Instance) (value : PyVal) :
  let loc_field_name :=
    build_localized_fieldname (name self) (get_language st) in
  __set__ self st instance value
  = dict_setitem (setattr instance loc_field_name value) (name self) value
  ∧ getattr (__set__ self st instance value) loc_field_name = Ok value
  ∧ dict_getitem (__set__ self st instance value) (name self) = Ok value.
Proof.
  intros loc_field_name. split; [reflexivity |]. split.
  - apply getattr_Some, set_lookup_localized.
  - unfold dict_getitem. by rewrite set_lookup_original.
Qed.

(** C4 (as stated, refuted). With a fallback value configured, writing
    the empty string and reading it back under the same language returns
    the fallback value, not the empty string. *)
Lemma C4_roundtrip_counterexample :
  __get__ title_descriptor_with_fallback (mkLocale "de")
    (Some (__set__ title_descriptor_with_fallback (mkLocale "de")
             hello_news (VStr "")))
  = Ok (VStr "n/a")
  ∧ __get__ title_descriptor_with_fallback (mkLocale "de")
      (Some (__set__ title_descriptor_with_fallback (mkLocale "de")
               hello_news (VStr "")))
    ≠ Ok (VStr "").
Proof. vm_compute. split; congruence. Qed.

(** C4 (amended). Writing [value] to the original attribute and reading
    the original attribute under the same active language returns
    [value], provided [value] is truthy or no fallback value is
    configured. *)
Theorem C4_set_then_get
    (self : t) (st : Locale) (instance : Instance) (value : PyVal) :
  truthy value = true ∨ fallback_value self = VNone →
  __get__ self st (Some (__set__ self st instance value)) = Ok value.
Proof.
  intros Hcase.
  rewrite (get_present _ _ _ _ (set_lookup_localized self st instance value)).
  destruct (truthy value) eqn:Htruthy; [done |].
  destruct Hcase as [Habs | Hfb]; [done |].
  rewrite Hfb. simpl.
  unfold get_default_instance, dict_getitem.
  by rewrite set_lookup_original.
Qed.

Lemma C4_set_then_get_witness :
  (truthy (VStr "") = true ∨ fallback_value title_descriptor = VNone)
  ∧ __get__ title_descriptor (mkLocale "de")
      (Some (__set__ title_descriptor (mkLocale "de") hello_news (VStr "")))
    = Ok (VStr "").
Proof.
  split; [right; reflexivity |].
  apply (C4_set_then_get title_descriptor (mkLocale "de") hello_news (VStr "")).
  right; reflexivity.
Defined.

(** C5. An assignment through the original attribute under the active
    language L changes [instance.__dict__] at two keys only, the shadow
    field of L and the original name; in particular the shadow field of
    every other language reads as before. *)
Theorem C5_set_frame
    (self : t) (st : Locale) (instance : Instance) (value : PyVal) :
  (∀ key : string,
     key ≠ name self →
     key ≠ build_localized_fieldname (name self) (get_language st) →
     __dict__ (__set__ self st instance value) !! key
     = __dict__ instance !! key)
  ∧ (∀ lang : string,
       lang ≠ get_language st →
       getattr (__set__ self st instance value)
         (build_localized_fieldname (name self) lang)
       = getattr instance (build_localized_fieldname (name self) lang)).
Proof.
  split.
  - apply set_lookup_other.
  - intros lang Hlang. unfold getattr.
    rewrite set_lookup_other.
    + reflexivity.
    + apply build_localized_fieldname_fresh.
    + intros Heq. by apply build_localized_fieldname_inj in Heq.
Qed.

Lemma C5_set_frame_witness :
  "en" ≠ get_language (mkLocale "de")
  ∧ getattr (__set__ title_descriptor (mkLocale "de") hello_news (VStr "Servus"))
      (build_localized_fieldname "title" "en")
    = getattr hello_news (build_localized_fieldname "title" "en").
Proof.
  assert (Hne : "en" ≠ get_language (mkLocale "de")) by discriminate.
  split; [exact Hne |].
  exact (proj2 (C5_set_frame title_descriptor (mkLocale "de") hello_news
                  (VStr "Servus")) "en" Hne).
Defined.

End descriptor_claims.

(** ** The wrapping fields *)

Section field_claims.
Context `{Django} (settings : Settings).

(** C3 (as stated, refuted). On the save that inserts [fresh_news]
    ([add] is true) the English shadow field, whose language is the
    default one, returns its value "Hi" but the original column keeps its
    old content. *)
Lemma C3_insert_counterexample :
  language title_en = DEFAULT_LANGUAGE en_de
  ∧ ∃ saved : Instance,
      TranslationField.pre_save (H := plain_django) en_de title_en fresh_news true
      = Ok (VStr "Hi", saved)
      ∧ __dict__ saved !! attname (field_dict (translated_field title_en))
        = Some (VStr "")
      ∧ __dict__ saved !! attname (field_dict (translated_field title_en))
        ≠ Some (VStr "Hi").
Proof.
  split; [reflexivity |]. exists fresh_news.
  vm_compute. repeat split; congruence.
Qed.

(** C3 (amended). On every save that is not an insert ([add] is false), a
    shadow field whose language is the default language writes the value
    its base class's [pre_save] produced into [model_instance.__dict__]
    under the wrapped field's attname, touches no other key, and returns
    that value unchanged; this holds for [TranslationField] and for
    [TranslationFileField]. *)
Theorem C3_pre_save_mirrors_on_update
    (self : Translation) (model_instance saved : Instance) (val : PyVal) :
  language self = DEFAULT_LANGUAGE settings →
  super_pre_save self model_instance false = Ok (val, saved) →
  ∃ mirrored : Instance,
    TranslationField.pre_save settings self model_instance false
    = Ok (val, mirrored)
    ∧ TranslationFileField.pre_save settings self model_instance false
      = Ok (val, mirrored)
    ∧ dict_getitem mirrored (attname (field_dict (translated_field self)))
      = Ok val
    ∧ ∀ key : string,
        key ≠ attname (field_dict (translated_field self)) →
        __dict__ mirrored !! key = __dict__ saved !! key.
Proof.
  intros Hlang Hsuper.
  exists (dict_setitem saved (attname (field_dict (translated_field self))) val).
  unfold TranslationField.pre_save, TranslationFileField.pre_save.
  rewrite Hsuper, Hlang. simpl. rewrite String.eqb_refl. simpl.
  repeat split.
  - unfold dict_getitem. simpl. by rewrite lookup_insert_eq.
  - intros key Hkey. simpl. by rewrite lookup_insert_ne.
Qed.

(** C6. The constructed [TranslationField] carries the language-suffixed
    name as [attname] and [name], the wrapped field's verbose name with a
    language suffix, and the wrapped field's remaining attributes;
    [to_python], [get_prep_lookup] and [get_internal_type] are those of
    the wrapped field; [formfield] calls the base class with the keyword
    arguments of the caller plus, unless the caller gave a widget, the
    class of the widget of the wrapped field's form field. *)
Theorem C6_translation_field_wraps (translated_field : Field) (language : string) :
  let self := TranslationField.__init__ translated_field language in
  attname (t_dict self)
  = build_localized_fieldname (name (field_dict translated_field)) language
  ∧ name (t_dict self)
    = build_localized_fieldname (name (field_dict translated_field)) language
  ∧ verbose_name (t_dict self)
    = build_localized_verbose_name
        (verbose_name (field_dict translated_field)) language
  ∧ verbose_name (t_dict self)
    = verbose_name (field_dict translated_field) +:+ " [" +:+ language +:+ "]"
  ∧ attrs (t_dict self) = attrs (field_dict translated_field)
  ∧ (∀ value, TranslationField.to_python self value
              = Field_to_python translated_field value)
  ∧ (∀ lookup_type value,
       TranslationField.get_prep_lookup self lookup_type value
       = Field_get_prep_lookup translated_field lookup_type value)
  ∧ TranslationField.get_internal_type self
    = Field_get_internal_type translated_field
  ∧ (∀ args kwargs trans_formfield,
       Field_formfield translated_field args kwargs = Ok trans_formfield →
       ∃ defaults : gmap string PyVal,
         TranslationField.formfield self args kwargs
         = super_formfield self args defaults
         ∧ defaults !! "widget"
           = Some (default (type_of (widget trans_formfield))
                     (kwargs !! "widget"))
         ∧ ∀ key, key ≠ "widget" → defaults !! key = kwargs !! key).
Proof.
  intros self. repeat (split; [reflexivity |]).
  intros args kwargs trans_formfield Htrans.
  exists (kwargs ∪ {[ "widget" := type_of (widget trans_formfield) ]}).
  split; [| split].
  - unfold TranslationField.formfield. simpl. by rewrite Htrans.
  - rewrite lookup_union. destruct (kwargs !! "widget") as [w |]; simpl.
    + by rewrite lookup_singleton_eq.
    + by rewrite lookup_singleton_eq.
  - intros key Hkey. rewrite lookup_union, lookup_singleton_ne by done.
    by destruct (kwargs !! key).
Qed.

(** C8. Every [TranslationField] is built with [null] and [blank] true
    whatever the wrapped field says, and so is every [TranslationFileField]
    or [TranslationImageField] its constructor returns; that constructor
    does return one whenever the keyword arguments name neither
    [primary_key] nor [unique] and the wrapped field has an [upload_to]. *)
Theorem C8_translations_are_optional
    (translated_field : Field) (language : string) :
  (null (t_dict (TranslationField.__init__ translated_field language)) = true
   ∧ blank (t_dict (TranslationField.__init__ translated_field language)) = true)
  ∧ (∀ cls kwargs self,
       TranslationFileField.__init__ cls translated_field language kwargs
       = Ok self →
       null (t_dict self) = true ∧ blank (t_dict self) = true)
  ∧ (∀ cls kwargs,
       kwargs !! "primary_key" = None →
       kwargs !! "unique" = None →
       is_Some (attrs (field_dict translated_field) !! "upload_to") →
       returns (TranslationFileField.__init__ cls translated_field language
                  kwargs)).
Proof.
  split; [split; reflexivity |]. split.
  - intros cls kwargs self. unfold TranslationFileField.__init__.
    repeat case_bool_decide; try discriminate.
    destruct (attrs (field_dict translated_field) !! "upload_to");
      [| discriminate].
    intros [= <-]. split; reflexivity.
  - intros cls kwargs Hpk Hunique [upload_to Hupload].
    unfold TranslationFileField.__init__.
    rewrite Hpk, Hunique, Hupload.
    rewrite !bool_decide_eq_false_2 by (by intros [? ?]).
    exact I.
Qed.

(** C10. [TranslationField.get_prep_value] hands [None] to the wrapped
    field's [get_prep_value] when the value equals the empty string and
    the value itself otherwise, so the empty string is stored as NULL as
    soon as the wrapped field prepares [None] as [None];
    [TranslationFileField.get_prep_value] answers [None] for the empty
    string and for [None] by itself. *)
Theorem C10_empty_string_becomes_None (self : Translation) :
  TranslationField.get_prep_value self (VStr "")
  = Field_get_prep_value (translated_field self) VNone
  ∧ (∀ value, eq_str value "" = true →
       TranslationField.get_prep_value self value
       = Field_get_prep_value (translated_field self) VNone)
  ∧ (∀ value, eq_str value "" = false →
       TranslationField.get_prep_value self value
       = Field_get_prep_value (translated_field self) value)
  ∧ (Field_get_prep_value (translated_field self) VNone = Ok VNone →
     TranslationField.get_prep_value self (VStr "") = Ok VNone)
  ∧ TranslationFileField.get_prep_value self (VStr "") = Ok VNone
  ∧ TranslationFileField.get_prep_value self VNone = Ok VNone.
Proof.
  unfold TranslationField.get_prep_value. repeat split; try done.
  - by intros value ->.
  - by intros value ->.
Qed.

End field_claims.

(** ** The factory and the generated columns *)

Lemma find_field_name (fields : list Field) (field_name : string) (field : Field) :
  find_field fields field_name = Ok field →
  name (field_dict field) = field_name.
Proof.
  induction fields as [| f fields IH]; simpl; [discriminate |].
  destruct (String.eqb_spec (name (field_dict f)) field_name) as [Heq | Hne].
  - by intros [= <-].
  - exact IH.
Qed.

Lemma filter_none {A : Type} (P : A → Prop) `{∀ x, Decision (P x)}
    (items : list A) :
  (∀ x, x ∈ items → ¬ P x) → filter P items = [].
Proof.
  induction items as [| x items IH]; intros Hnone; [done |].
  rewrite filter_cons. destruct (decide (P x)) as [HP | _].
  - destruct (Hnone x); [left | done].
  - apply IH. intros y Hy. apply Hnone. by right.
Qed.

Lemma filter_unique_key {A K : Type} `{EqDecision K}
    (key : A → K) (items : list A) (k : K) :
  NoDup (key <$> items) → k ∈ key <$> items →
  ∃ item, filter (λ x, key x = k) items = [item] ∧ key item = k.
Proof.
  induction items as [| x items IH]; simpl.
  - intros _ Hin. by apply elem_of_nil in Hin.
  - rewrite NoDup_cons. intros [Hfresh Hnodup] Hin.
    rewrite filter_cons. destruct (decide (key x = k)) as [Heq | Hne].
    + exists x. split; [| done]. f_equal.
      apply filter_none. intros y Hy Hk.
      apply Hfresh. rewrite Heq, <- Hk. by apply list_elem_of_fmap_2.
    + apply IH; [done |].
      apply elem_of_cons in Hin as [Hk | Hin]; [congruence | done].
Qed.

Section factory_claims.
Context `{Django} (settings : Settings).

(** The condition the factory tests before raising. *)
Let supported (field : Field) : Prop :=
  isinstance field [CharField; TextField; FileField; ImageField] = true
  ∨ __name__ (__class__ field) ∈ CUSTOM_FIELDS settings.

(** Django's [FileField] constructor always stores [upload_to]. *)
Let has_upload_to (field : Field) : Prop :=
  isinstance field [FileField] = true →
  is_Some (attrs (field_dict field) !! "upload_to").

Lemma isinstance_ImageField_FileField (field : Field) :
  isinstance field [ImageField] = true → isinstance field [FileField] = true.
Proof.
  unfold isinstance. simpl. by destruct (django_base (__class__ field)).
Qed.

Lemma create_translation_field_unsupported
    (model : Model) (field_name lang : string) (field : Field) :
  get_field model field_name = Ok field →
  ¬ supported field →
  create_translation_field settings model field_name lang
  = Raise (ImproperlyConfigured (__name__ (__class__ field))).
Proof.
  intros Hfield Hunsupported. unfold create_translation_field.
  rewrite Hfield. cbn [mbind Result_bind].
  destruct (isinstance field [CharField; TextField; FileField; ImageField])
    eqn:Hinst.
  - destruct Hunsupported. by left.
  - rewrite bool_decide_eq_false_2; [done |].
    intros Hin. destruct Hunsupported. by right.
Qed.

Lemma file_init_ok (cls : TranslationClass) (field : Field) (lang : string) :
  is_Some (attrs (field_dict field) !! "upload_to") →
  ∃ self,
    TranslationFileField.__init__ cls field lang ∅ = Ok self
    ∧ t_class self = cls
    ∧ shadow_of self = (name (field_dict field), lang)
    ∧ translated_field self = field
    ∧ attname (t_dict self)
      = build_localized_fieldname (name (field_dict field)) lang
    ∧ name (t_dict self)
      = build_localized_fieldname (name (field_dict field)) lang.
Proof.
  intros [upload_to Hupload]. unfold TranslationFileField.__init__.
  rewrite !lookup_empty, Hupload.
  rewrite !bool_decide_eq_false_2 by (by intros [? ?]).
  eexists. split; [reflexivity |]. by repeat split.
Qed.

Lemma file_init_not_improperly_configured
    (cls : TranslationClass) (field : Field) (lang cls_name : string) :
  TranslationFileField.__init__ cls field lang ∅
  ≠ Raise (ImproperlyConfigured cls_name).
Proof.
  unfold TranslationFileField.__init__.
  rewrite !lookup_empty.
  rewrite !bool_decide_eq_false_2 by (by intros [? ?]).
  by destruct (attrs (field_dict field) !! "upload_to").
Qed.

Lemma create_translation_field_supported
    (model : Model) (field_name lang : string) (field : Field) :
  get_field model field_name = Ok field →
  supported field →
  has_upload_to field →
  ∃ self,
    create_translation_field settings model field_name lang = Ok self
    ∧ t_class self
      = (if isinstance field [ImageField] then TranslationImageField_class
         else if isinstance field [FileField] then TranslationFileField_class
         else TranslationField_class)
    ∧ shadow_of self = (field_name, lang)
    ∧ translated_field self = field
    ∧ attname (t_dict self) = build_localized_fieldname field_name lang
    ∧ name (t_dict self) = build_localized_fieldname field_name lang.
Proof.
  intros Hfield Hsupported Hupload. unfold create_translation_field.
  rewrite Hfield. cbn [mbind Result_bind].
  apply find_field_name in Hfield as <-.
  assert (Hcond :
    isinstance field [CharField; TextField; FileField; ImageField]
    || bool_decide (__name__ (__class__ field) ∈ CUSTOM_FIELDS settings)
    = true).
  { destruct Hsupported as [-> | Hin]; [done |].
    rewrite (bool_decide_eq_true_2 _ Hin). apply orb_true_r. }
  rewrite Hcond. simpl.
  destruct (isinstance field [ImageField]) eqn:Himage.
  - apply file_init_ok, Hupload. by apply isinstance_ImageField_FileField.
  - destruct (isinstance field [FileField]) eqn:Hfile.
    + by apply file_init_ok, Hupload.
    + eexists. split; [reflexivity |]. by repeat split.
Qed.

(** C9. For a field the model has, [create_translation_field] raises
    [ImproperlyConfigured] exactly when the field is an instance of none
    of [CharField], [TextField], [FileField], [ImageField] and its class
    name is not in [CUSTOM_FIELDS]; otherwise (file fields carrying their
    [upload_to], as Django's constructor ensures) it returns a
    [TranslationImageField] for an [ImageField], a [TranslationFileField]
    for any other [FileField] and a [TranslationField] for the rest, each
    wrapping that field for that language. *)
Theorem C9_factory_dispatch
    (model : Model) (field_name lang : string) (field : Field) :
  get_field model field_name = Ok field →
  ((∃ cls_name,
      create_translation_field settings model field_name lang
      = Raise (ImproperlyConfigured cls_name))
   ↔ (isinstance field [CharField; TextField; FileField; ImageField] = false
      ∧ __name__ (__class__ field) ∉ CUSTOM_FIELDS settings))
  ∧ ((isinstance field [CharField; TextField; FileField; ImageField] = true
      ∨ __name__ (__class__ field) ∈ CUSTOM_FIELDS settings) →
     (isinstance field [FileField] = true →
      is_Some (attrs (field_dict field) !! "upload_to")) →
     ∃ self,
       create_translation_field settings model field_name lang = Ok self
       ∧ translated_field self = field
       ∧ language self = lang
       ∧ t_class self
         = (if isinstance field [ImageField] then TranslationImageField_class
            else if isinstance field [FileField]
                 then TranslationFileField_class
                 else TranslationField_class)).
Proof.
  intros Hfield. split; [split |].
  - intros [cls_name Hraise].
    destruct (isinstance field [CharField; TextField; FileField; ImageField])
      eqn:Hinst;
      [| destruct (decide (__name__ (__class__ field) ∈ CUSTOM_FIELDS settings))
           as [Hin | Hnotin]; [| done]];
      exfalso; revert Hraise; unfold create_translation_field;
      rewrite Hfield; cbn [mbind Result_bind]; rewrite Hinst; simpl;
      rewrite ?(bool_decide_eq_true_2 _ Hin); simpl;
      (destruct (isinstance field [ImageField]);
       [apply file_init_not_improperly_configured |]);
      (destruct (isinstance field [FileField]);
       [apply file_init_not_improperly_configured | discriminate]).
  - intros [Hinst Hnotin]. eexists.
    apply create_translation_field_unsupported; [done |].
    intros [Hyes | Hin]; [congruence | done].
  - intros Hsupported Hupload.
    destruct (create_translation_field_supported model field_name lang field
                Hfield Hsupported Hupload)
      as (self & Hcreate & Hclass & Hshadow & Hwrapped & _).
    exists self. repeat split; try done.
    by injection Hshadow.
Qed.

(** A registered field the factory accepts. *)
Let translatable (model : Model) (field_name : string) : Prop :=
  ∃ field, get_field model field_name = Ok field
           ∧ supported field ∧ has_upload_to field.

Let well_named (column : Translation) : Prop :=
  attname (t_dict column)
  = build_localized_fieldname (shadow_of column).1 (shadow_of column).2
  ∧ name (t_dict column) = attname (t_dict column).

Lemma localized_versions_ok
    (model : Model) (field_name : string) (langs : list string) :
  translatable model field_name →
  ∃ columns,
    localized_versions settings model field_name langs = Ok columns
    ∧ shadow_of <$> columns = (λ l, (field_name, l)) <$> langs
    ∧ Forall well_named columns.
Proof.
  intros (field & Hfield & Hsupported & Hupload).
  induction langs as [| l langs (columns & Hrun & Hshadow & Hnamed)]; simpl.
  - exists []. by repeat split.
  - destruct (create_translation_field_supported model field_name l field
                Hfield Hsupported Hupload)
      as (self & Hcreate & _ & Hself & _ & Hattname & Hname).
    exists (self :: columns). rewrite Hcreate, Hrun. simpl.
    split; [reflexivity |]. split.
    + rewrite Hself. f_equal. exact Hshadow.
    + constructor; [| done]. unfold well_named.
      by rewrite Hself, Hattname, Hname.
Qed.

Lemma add_translation_fields_ok (model : Model) (fields : list string) :
  (∀ field_name, field_name ∈ fields → translatable model field_name) →
  ∃ columns,
    add_translation_fields settings model fields = Ok columns
    ∧ shadow_of <$> columns
      = fields ≫= (λ f, (λ l, (f, l)) <$> LANGUAGES settings)
    ∧ Forall well_named columns.
Proof.
  induction fields as [| f fields IH]; intros Hall; simpl.
  - exists []. by repeat split.
  - destruct (localized_versions_ok model f (LANGUAGES settings))
      as (columns & Hrun & Hshadow & Hnamed); [apply Hall; by left |].
    destruct IH as (rest & Hrest & Hshadows & Hnameds).
    { intros g Hg. apply Hall. by right. }
    exists (columns ++ rest)%list. rewrite Hrun, Hrest. simpl.
    split; [reflexivity |]. split.
    + by rewrite fmap_app, Hshadow, Hshadows.
    + by apply Forall_app.
Qed.

Lemma NoDup_field_language_pairs (fields langs : list string) :
  NoDup fields → NoDup langs →
  NoDup (fields ≫= (λ f, (λ l, (f, l)) <$> langs)).
Proof.
  intros Hfields Hlangs. apply NoDup_bind; [| | done].
  - intros f1 f2 [f l] _ _ Hin1 Hin2.
    apply list_elem_of_fmap in Hin1 as (l1 & [= -> ->] & _).
    by apply list_elem_of_fmap in Hin2 as (l2 & [= -> ->] & _).
  - intros f _. apply NoDup_fmap_2; [| done]. by intros l1 l2 [= ->].
Qed.

(** C7. When the registered field names and the configured languages are
    each free of repetitions and every registered field is one the
    factory accepts, patching the model succeeds and, for every
    registered field and every configured language, exactly one of the
    generated columns was made from that field for that language; it is
    stored under the language-suffixed name. *)
Theorem C7_one_shadow_column_per_language (model : Model) (fields : list string) :
  NoDup fields →
  NoDup (LANGUAGES settings) →
  (∀ field_name, field_name ∈ fields →
     ∃ field,
       get_field model field_name = Ok field
       ∧ (isinstance field [CharField; TextField; FileField; ImageField] = true
          ∨ __name__ (__class__ field) ∈ CUSTOM_FIELDS settings)
       ∧ (isinstance field [FileField] = true →
          is_Some (attrs (field_dict field) !! "upload_to"))) →
  ∃ columns,
    add_translation_fields settings model fields = Ok columns
    ∧ length columns = length fields * length (LANGUAGES settings)
    ∧ ∀ field_name lang,
        field_name ∈ fields → lang ∈ LANGUAGES settings →
        ∃ column,
          filter (λ c, shadow_of c = (field_name, lang)) columns = [column]
          ∧ attname (t_dict column)
            = build_localized_fieldname field_name lang
          ∧ name (t_dict column)
            = build_localized_fieldname field_name lang.
Proof.
  intros Hfields Hlangs Hall.
  destruct (add_translation_fields_ok model fields Hall)
    as (columns & Hrun & Hshadow & Hnamed).
  exists columns. split; [done |]. split.
  - rewrite <- (length_fmap shadow_of columns), Hshadow.
    clear. induction fields as [| f fields IH]; [done |].
    rewrite bind_cons, length_app, length_fmap, IH. simpl. lia.
  - intros field_name lang Hfield Hlang.
    destruct (filter_unique_key shadow_of columns (field_name, lang))
      as (column & Hfilter & Hkey).
    + rewrite Hshadow. by apply NoDup_field_language_pairs.
    + rewrite Hshadow. apply list_elem_of_bind. exists field_name.
      split; [| done]. by apply list_elem_of_fmap_2.
    + exists column. split; [done |].
      assert (Hin : column ∈ columns).
      { assert (Hin : column ∈ filter (λ c, shadow_of c = (field_name, lang))
                                  columns)
          by (rewrite Hfilter; by left).
        by apply list_elem_of_filter in Hin as [_ Hin]. }
      rewrite Forall_forall in Hnamed.
      destruct (Hnamed column Hin) as [Hattname Hname].
      rewrite Hname, Hattname, Hkey. done.
Qed.

End factory_claims.

(** ** The properties at work on the sample model *)

Lemma C3_pre_save_mirrors_witness :
  let edited := setattr hello_news "title_en" (VStr "Hi") in
  language title_en = DEFAULT_LANGUAGE en_de
  ∧ super_pre_save title_en edited false = Ok (VStr "Hi", edited)
  ∧ ∃ mirrored : Instance,
      TranslationField.pre_save en_de title_en edited false
      = Ok (VStr "Hi", mirrored)
      ∧ TranslationFileField.pre_save en_de title_en edited false
        = Ok (VStr "Hi", mirrored)
      ∧ dict_getitem mirrored (attname (field_dict (translated_field title_en)))
        = Ok (VStr "Hi")
      ∧ ∀ key : string,
          key ≠ attname (field_dict (translated_field title_en)) →
          __dict__ mirrored !! key = __dict__ edited !! key.
Proof.
  intros edited.
  assert (Hlang : language title_en = DEFAULT_LANGUAGE en_de) by reflexivity.
  assert (Hsuper : super_pre_save title_en edited false = Ok (VStr "Hi", edited))
    by (vm_compute; reflexivity).
  split; [exact Hlang |]. split; [exact Hsuper |].
  exact (C3_pre_save_mirrors_on_update en_de title_en edited edited (VStr "Hi")
           Hlang Hsuper).
Defined.

Lemma C6_translation_field_wraps_witness :
  let self := TranslationField.__init__ text_field "de" in
  Field_formfield text_field [] ∅ = Ok (mkFormField (mkWidget "Textarea"))
  ∧ name (t_dict self) = "text_de"
  ∧ ∃ defaults : gmap string PyVal,
      TranslationField.formfield self [] ∅ = super_formfield self [] defaults
      ∧ defaults !! "widget" = Some (VClass "Textarea")
      ∧ ∀ key, key ≠ "widget" → defaults !! key = (∅ : gmap string PyVal) !! key.
Proof.
  intros self.
  assert (Htrans : Field_formfield text_field [] ∅
                   = Ok (mkFormField (mkWidget "Textarea")))
    by (vm_compute; reflexivity).
  destruct (C6_translation_field_wraps (H := plain_django) text_field "de")
    as (_ & Hname & _ & _ & _ & _ & _ & _ & Hformfield).
  split; [exact Htrans |]. split; [exact Hname |].
  exact (Hformfield [] ∅ (mkFormField (mkWidget "Textarea")) Htrans).
Defined.

Lemma C7_one_shadow_column_witness :
  NoDup ["title"; "picture"]
  ∧ NoDup (LANGUAGES en_de)
  ∧ ∃ columns,
      add_translation_fields en_de News ["title"; "picture"] = Ok columns
      ∧ length columns = 4
      ∧ ∃ column,
          filter (λ c, shadow_of c = ("title", "de")) columns = [column]
          ∧ attname (t_dict column) = "title_de"
          ∧ name (t_dict column) = "title_de".
Proof.
  assert (Hfields : NoDup ["title"; "picture"])
    by (apply (bool_decide_unpack _); vm_compute; exact I).
  assert (Hlangs : NoDup (LANGUAGES en_de))
    by (apply (bool_decide_unpack _); vm_compute; exact I).
  split; [exact Hfields |]. split; [exact Hlangs |].
  destruct (C7_one_shadow_column_per_language (H := plain_django) en_de News
              ["title"; "picture"] Hfields Hlangs)
    as (columns & Hrun & Hlength & Hone).
  - intros field_name Hin.
    apply elem_of_cons in Hin as [-> | Hin].
    + exists title_field. split; [reflexivity |]. split; [by left |].
      intros Hfile. vm_compute in Hfile. discriminate.
    + apply elem_of_cons in Hin as [-> | Hin].
      * exists image_field. split; [reflexivity |]. split; [by left |].
        intros _. exists (VFunc "picture_path"). reflexivity.
      * by apply elem_of_nil in Hin.
  - exists columns. split; [exact Hrun |]. split; [exact Hlength |].
    apply (Hone "title" "de").
    + apply elem_of_cons. by left.
    + apply elem_of_cons. right. apply elem_of_cons. by left.
Defined.

Lemma C8_translations_are_optional_witness :
  (∅ : gmap string PyVal) !! "primary_key" = None
  ∧ (∅ : gmap string PyVal) !! "unique" = None
  ∧ is_Some (attrs (field_dict file_field) !! "upload_to")
  ∧ returns (TranslationFileField.__init__ TranslationFileField_class
               file_field "de" ∅)
  ∧ ∃ self,
      TranslationFileField.__init__ TranslationFileField_class file_field "de" ∅
      = Ok self
      ∧ null (t_dict self) = true ∧ blank (t_dict self) = true.
Proof.
  assert (Hupload : is_Some (attrs (field_dict file_field) !! "upload_to"))
    by (exists (VStr "files"); reflexivity).
  destruct (C8_translations_are_optional (H := plain_django) file_field "de")
    as (_ & Hoptional & Hreturns).
  split; [reflexivity |]. split; [reflexivity |]. split; [exact Hupload |].
  split.
  - exact (Hreturns TranslationFileField_class ∅ eq_refl eq_refl Hupload).
  - eexists. split; [vm_compute; reflexivity |].
    apply (Hoptional TranslationFileField_class ∅). vm_compute; reflexivity.
Defined.

Lemma C9_factory_dispatch_witness :
  get_field News "picture" = Ok image_field
  ∧ (isinstance image_field [CharField; TextField; FileField; ImageField] = true
     ∨ __name__ (__class__ image_field) ∈ CUSTOM_FIELDS en_de)
  ∧ (isinstance image_field [FileField] = true →
     is_Some (attrs (field_dict image_field) !! "upload_to"))
  ∧ ∃ self,
      create_translation_field en_de News "picture" "de" = Ok self
      ∧ translated_field self = image_field
      ∧ language self = "de"
      ∧ t_class self = TranslationImageField_class.
Proof.
  assert (Hfield : get_field News "picture" = Ok image_field) by reflexivity.
  assert (Hsupported :
    isinstance image_field [CharField; TextField; FileField; ImageField] = true
    ∨ __name__ (__class__ image_field) ∈ CUSTOM_FIELDS en_de) by (by left).
  assert (Hupload : isinstance image_field [FileField] = true →
                    is_Some (attrs (field_dict image_field) !! "upload_to"))
    by (intros _; exists (VFunc "picture_path"); reflexivity).
  split; [exact Hfield |]. split; [exact Hsupported |].
  split; [exact Hupload |].
  exact (proj2 (C9_factory_dispatch (H := plain_django) en_de News "picture"
                  "de" image_field Hfield) Hsupported Hupload).
Defined.

Lemma C10_empty_string_becomes_None_witness :
  eq_str (VFile (Some "")) "" = true
  ∧ eq_str (VStr "Hallo") "" = false
  ∧ Field_get_prep_value (translated_field title_de) VNone = Ok VNone
  ∧ TranslationField.get_prep_value title_de (VFile (Some "")) = Ok VNone
  ∧ TranslationField.get_prep_value title_de (VStr "Hallo") = Ok (VStr "Hallo")
  ∧ TranslationField.get_prep_value title_de (VStr "") = Ok VNone.
Proof.
  destruct (C10_empty_string_becomes_None (H := plain_django) title_de)
    as (_ & Hempty & Hother & Hnull & _).
  split; [reflexivity |]. split; [reflexivity |]. split; [reflexivity |].
  split; [exact (Hempty (VFile (Some "")) eq_refl) |].
  split; [exact (Hother (VStr "Hallo") eq_refl) |].
  exact (Hnull eq_refl).
Defined.

(** ** Further properties of the descriptor *)

Section descriptor_extras.
Import TranslationFieldDescriptor.

Lemma is_None_VNone (v : PyVal) : is_None v = true ↔ v = VNone.
Proof. destruct v; simpl; split; congruence. Qed.

(** X1. Reading the original attribute on an instance fails in one
    situation only: the shadow field of the active language is there and
    falsy, no fallback value is configured, and the original slot is
    missing from [instance.__dict__]; the exception is then the
    [KeyError] of the original name. *)
Theorem X1_get_raises_only_on_missing_original
    (self : t) (st : Locale) (instance : Instance) (e : Exn) :
  __get__ self st (Some instance) = Raise e
  ↔ e = KeyError (name self)
    ∧ fallback_value self = VNone
    ∧ __dict__ instance !! name self = None
    ∧ ∃ v, __dict__ instance
           !! build_localized_fieldname (name self) (get_language st) = Some v
           ∧ truthy v = false.
Proof.
  destruct (__dict__ instance
            !! build_localized_fieldname (name self) (get_language st))
    as [v |] eqn:Hloc.
  - rewrite (get_present _ _ _ _ Hloc).
    unfold get_default_instance, dict_getitem.
    destruct (truthy v) eqn:Htruthy.
    + split; [discriminate |]. intros (_ & _ & _ & w & [= <-] & Hw). congruence.
    + destruct (is_None (fallback_value self)) eqn:Hfb.
      * apply is_None_VNone in Hfb.
        destruct (__dict__ instance !! name self) as [original |] eqn:Horiginal.
        -- split; [discriminate |]. by intros (_ & _ & ? & _).
        -- split.
           ++ intros [= <-]. repeat split; try done. by exists v.
           ++ by intros (-> & _).
      * split; [discriminate |]. intros (_ & Hnone & _).
        apply is_None_VNone in Hnone. congruence.
  - rewrite (get_absent _ _ _ Hloc).
    split; [discriminate |]. by intros (_ & _ & _ & w & ? & _).
Qed.

Lemma X1_get_raises_witness :
  __get__ title_descriptor (mkLocale "de") (Some orphan_news)
  = Raise (KeyError "title").
Proof.
  apply (proj2 (X1_get_raises_only_on_missing_original title_descriptor
                  (mkLocale "de") orphan_news (KeyError "title"))).
  split; [reflexivity |]. split; [reflexivity |]. split; [reflexivity |].
  exists (VStr ""). split; reflexivity.
Defined.

(** X2. A truthy value in the shadow field of the active language is what
    the original attribute reads as, whatever the fallback value and the
    original slot are. *)
Theorem X2_localized_value_wins
    (self : t) (st : Locale) (instance : Instance) (v : PyVal) :
  __dict__ instance !! build_localized_fieldname (name self) (get_language st)
    = Some v →
  truthy v = true →
  __get__ self st (Some instance) = Ok v.
Proof.
  intros Hloc Htruthy. by rewrite (get_present _ _ _ _ Hloc), Htruthy.
Qed.

Lemma X2_localized_value_wins_witness :
  __dict__ hello_news !! build_localized_fieldname "title" "de"
    = Some (VStr "Hallo")
  ∧ truthy (VStr "Hallo") = true
  ∧ __get__ title_descriptor_with_fallback (mkLocale "de") (Some hello_news)
    = Ok (VStr "Hallo").
Proof.
  assert (Hloc : __dict__ hello_news
                 !! build_localized_fieldname
                      (name title_descriptor_with_fallback)
                      (get_language (mkLocale "de")) = Some (VStr "Hallo"))
    by (vm_compute; reflexivity).
  split; [exact Hloc |]. split; [reflexivity |].
  exact (X2_localized_value_wins title_descriptor_with_fallback
           (mkLocale "de") hello_news (VStr "Hallo") Hloc eq_refl).
Defined.

(** X3. With a fallback value configured, a falsy shadow field of the
    active language makes the original attribute read as the fallback
    value; the original slot is not consulted, so the read succeeds even
    when that slot is missing. *)
Theorem X3_configured_fallback_is_returned
    (self : t) (st : Locale) (instance : Instance) (v : PyVal) :
  __dict__ instance !! build_localized_fieldname (name self) (get_language st)
    = Some v →
  truthy v = false →
  fallback_value self ≠ VNone →
  __get__ self st (Some instance) = Ok (fallback_value self).
Proof.
  intros Hloc Hfalsy Hfb.
  rewrite (get_present _ _ _ _ Hloc), Hfalsy.
  destruct (is_None (fallback_value self)) eqn:Hnone; [| done].
  by apply is_None_VNone in Hnone.
Qed.

Lemma X3_configured_fallback_witness :
  __dict__ orphan_news !! build_localized_fieldname "title" "de"
    = Some (VStr "")
  ∧ truthy (VStr "") = false
  ∧ fallback_value title_descriptor_with_fallback ≠ VNone
  ∧ __get__ title_descriptor_with_fallback (mkLocale "de") (Some orphan_news)
    = Ok (VStr "n/a").
Proof.
  assert (Hloc : __dict__ orphan_news
                 !! build_localized_fieldname
                      (name title_descriptor_with_fallback)
                      (get_language (mkLocale "de")) = Some (VStr ""))
    by (vm_compute; reflexivity).
  assert (Hfb : fallback_value title_descriptor_with_fallback ≠ VNone)
    by discriminate.
  split; [exact Hloc |]. split; [reflexivity |]. split; [exact Hfb |].
  exact (X3_configured_fallback_is_returned title_descriptor_with_fallback
           (mkLocale "de") orphan_news (VStr "") Hloc eq_refl Hfb).
Defined.

(** X4. A value written under one language is invisible under another
    language for which the instance has no shadow field: the read falls off
    the end of [__get__] and yields [None], although the original slot now
    holds the written value. *)
Theorem X4_write_invisible_without_shadow_field
    (self : t) (writer reader : Locale) (instance : Instance) (value : PyVal) :
  get_language reader ≠ get_language writer →
  __dict__ instance
    !! build_localized_fieldname (name self) (get_language reader) = None →
  __get__ self reader (Some (__set__ self writer instance value)) = Ok VNone
  ∧ dict_getitem (__set__ self writer instance value) (name self) = Ok value.
Proof.
  intros Hlang Habsent. split.
  - apply get_absent. rewrite set_lookup_other; [done | |].
    + apply build_localized_fieldname_fresh.
    + intros Heq. by apply build_localized_fieldname_inj in Heq.
  - unfold dict_getitem. by rewrite set_lookup_original.
Qed.

Lemma X4_write_invisible_witness :
  get_language (mkLocale "fr") ≠ get_language (mkLocale "de")
  ∧ __dict__ hello_news !! build_localized_fieldname "title" "fr" = None
  ∧ __get__ title_descriptor (mkLocale "fr")
      (Some (__set__ title_descriptor (mkLocale "de") hello_news
               (VStr "Servus")))
    = Ok VNone.
Proof.
  assert (Hlang : get_language (mkLocale "fr") ≠ get_language (mkLocale "de"))
    by discriminate.
  assert (Habsent : __dict__ hello_news
                    !! build_localized_fieldname (name title_descriptor)
                         (get_language (mkLocale "fr")) = None)
    by (vm_compute; reflexivity).
  split; [exact Hlang |]. split; [exact Habsent |].
  exact (proj1 (X4_write_invisible_without_shadow_field title_descriptor
                  (mkLocale "de") (mkLocale "fr") hello_news (VStr "Servus")
                  Hlang Habsent)).
Defined.

(** X5. Languages are isolated as long as translations are truthy: after a
    truthy value was written under one language, a later write under
    another language does not change what the first language reads. *)
Theorem X5_truthy_translation_survives_other_write
    (self : t) (first second : Locale) (instance : Instance)
    (v1 v2 : PyVal) :
  get_language first ≠ get_language second →
  truthy v1 = true →
  __get__ self first
    (Some (__set__ self second (__set__ self first instance v1) v2))
  = Ok v1.
Proof.
  intros Hlang Htruthy.
  assert (Hkept : __dict__ (__set__ self second
                              (__set__ self first instance v1) v2)
                  !! build_localized_fieldname (name self) (get_language first)
                  = Some v1).
  { rewrite set_lookup_other.
    - apply set_lookup_localized.
    - apply build_localized_fieldname_fresh.
    - intros Heq. by apply build_localized_fieldname_inj in Heq. }
  by rewrite (get_present _ _ _ _ Hkept), Htruthy.
Qed.

Lemma X5_truthy_translation_survives_witness :
  get_language (mkLocale "en") ≠ get_language (mkLocale "de")
  ∧ truthy (VStr "Hi") = true
  ∧ __get__ title_descriptor (mkLocale "en")
      (Some (__set__ title_descriptor (mkLocale "de")
               (__set__ title_descriptor (mkLocale "en") hello_news (VStr "Hi"))
               (VStr "Servus")))
    = Ok (VStr "Hi").
Proof.
  assert (Hlang : get_language (mkLocale "en") ≠ get_language (mkLocale "de"))
    by discriminate.
  split; [exact Hlang |]. split; [reflexivity |].
  exact (X5_truthy_translation_survives_other_write title_descriptor
           (mkLocale "en") (mkLocale "de") hello_news (VStr "Hi")
           (VStr "Servus") Hlang eq_refl).
Defined.

(** X6. Without a fallback value, a language whose shadow field is falsy
    reads whatever was written last through the original attribute under
    any other language: the original slot is shared by all languages. *)
Theorem X6_empty_translation_reads_last_write
    (self : t) (reader writer : Locale) (instance : Instance)
    (v value : PyVal) :
  get_language reader ≠ get_language writer →
  __dict__ instance
    !! build_localized_fieldname (name self) (get_language reader) = Some v →
  truthy v = false →
  fallback_value self = VNone →
  __get__ self reader (Some (__set__ self writer instance value)) = Ok value.
Proof.
  intros Hlang Hloc Hfalsy Hfb.
  assert (Hkept : __dict__ (__set__ self writer instance value)
                  !! build_localized_fieldname (name self) (get_language reader)
                  = Some v).
  { rewrite set_lookup_other; [done | |].
    - apply build_localized_fieldname_fresh.
    - intros Heq. by apply build_localized_fieldname_inj in Heq. }
  rewrite (get_present _ _ _ _ Hkept), Hfalsy, Hfb. simpl.
  unfold get_default_instance, dict_getitem.
  by rewrite set_lookup_original.
Qed.

Lemma X6_empty_translation_witness :
  let cleared := setattr hello_news "title_en" (VStr "") in
  get_language (mkLocale "en") ≠ get_language (mkLocale "de")
  ∧ __dict__ cleared !! build_localized_fieldname "title" "en" = Some (VStr "")
  ∧ truthy (VStr "") = false
  ∧ fallback_value title_descriptor = VNone
  ∧ __get__ title_descriptor (mkLocale "en")
      (Some (__set__ title_descriptor (mkLocale "de") cleared (VStr "Servus")))
    = Ok (VStr "Servus").
Proof.
  intros cleared.
  assert (Hlang : get_language (mkLocale "en") ≠ get_language (mkLocale "de"))
    by discriminate.
  assert (Hloc : __dict__ cleared
                 !! build_localized_fieldname (name title_descriptor)
                      (get_language (mkLocale "en")) = Some (VStr ""))
    by (vm_compute; reflexivity).
  split; [exact Hlang |]. split; [exact Hloc |].
  split; [reflexivity |]. split; [reflexivity |].
  exact (X6_empty_translation_reads_last_write title_descriptor
           (mkLocale "en") (mkLocale "de") cleared (VStr "") (VStr "Servus")
           Hlang Hloc eq_refl eq_refl).
Defined.

(** X7. Under one active language a second assignment overwrites the
    first completely: the instance is the one the second assignment alone
    would have produced (so assigning the same value twice changes
    nothing more). *)
Theorem X7_second_assignment_overwrites
    (self : t) (st : Locale) (instance : Instance) (v1 v2 : PyVal) :
  __set__ self st (__set__ self st instance v1) v2
  = __set__ self st instance v2.
Proof.
  unfold __set__, dict_setitem, setattr. simpl. f_equal.
  apply map_eq. intros key.
  rewrite !lookup_insert. by repeat case_decide.
Qed.

End descriptor_extras.

(** ** Further properties of the wrapping fields *)

Section field_extras.
Context `{Django} (settings : Settings).

(** X8. On an insert, and for every shadow field whose language is not the
    default one, [pre_save] is exactly the base class's [pre_save]: the
    original column is left alone (in [TranslationField] and in
    [TranslationFileField]). *)
Theorem X8_pre_save_is_base_pre_save
    (self : Translation) (model_instance : Instance) (add : bool) :
  language self ≠ DEFAULT_LANGUAGE settings ∨ add = true →
  TranslationField.pre_save settings self model_instance add
  = super_pre_save self model_instance add
  ∧ TranslationFileField.pre_save settings self model_instance add
    = super_pre_save self model_instance add.
Proof.
  intros Hcase.
  unfold TranslationField.pre_save, TranslationFileField.pre_save.
  assert (Hguard : String.eqb (DEFAULT_LANGUAGE settings) (language self)
                   && negb add = false).
  { destruct Hcase as [Hlang | ->]; [| apply andb_false_r].
    apply andb_false_intro1, String.eqb_neq. congruence. }
  destruct (super_pre_save self model_instance add) as [[val saved] | e];
    simpl; [| done].
  by rewrite Hguard.
Qed.

(** X9. [pre_save] fails exactly when the base class's [pre_save] fails,
    with the same exception, and when it returns it returns the value the
    base class produced: mirroring never changes the value that is
    saved, and it never adds a failure. *)
Theorem X9_pre_save_fails_and_returns_like_base
    (self : Translation) (model_instance : Instance) (add : bool) :
  (∀ e, TranslationField.pre_save settings self model_instance add = Raise e
        ↔ super_pre_save self model_instance add = Raise e)
  ∧ (∀ e, TranslationFileField.pre_save settings self model_instance add
          = Raise e
          ↔ super_pre_save self model_instance add = Raise e)
  ∧ (∀ val mirrored,
       TranslationField.pre_save settings self model_instance add
       = Ok (val, mirrored) →
       ∃ saved, super_pre_save self model_instance add = Ok (val, saved))
  ∧ (∀ val mirrored,
       TranslationFileField.pre_save settings self model_instance add
       = Ok (val, mirrored) →
       ∃ saved, super_pre_save self model_instance add = Ok (val, saved)).
Proof.
  unfold TranslationField.pre_save, TranslationFileField.pre_save.
  destruct (super_pre_save self model_instance add) as [[val saved] | e0];
    simpl;
    destruct (String.eqb (DEFAULT_LANGUAGE settings) (language self)
              && negb add);
    repeat split; try done;
    intros val' mirrored [= <- _]; by exists saved.
Qed.

(** X10. The two [get_prep_value] methods differ only on values the file
    variant answers by itself: whenever the wrapped field prepares [None]
    as [None], [TranslationFileField.get_prep_value] and
    [TranslationField.get_prep_value] agree on every value. *)
Theorem X10_get_prep_value_variants_agree (self : Translation) :
  Field_get_prep_value (translated_field self) VNone = Ok VNone →
  ∀ value,
    TranslationFileField.get_prep_value self value
    = TranslationField.get_prep_value self value.
Proof.
  intros Hnone value.
  unfold TranslationFileField.get_prep_value, TranslationField.get_prep_value.
  destruct (eq_str value "") eqn:Hempty; simpl; [done |].
  destruct value; simpl; try done.
Qed.

(** X11. The constructor of [TranslationFileField] fails in three ways
    only, tested in this order: [TypeError] for a [primary_key] keyword,
    [TypeError] for a [unique] keyword, [KeyError] when the wrapped field
    has no [upload_to]. *)
Theorem X11_file_init_failures
    (cls : TranslationClass) (translated_field : Field) (language : string)
    (kwargs : gmap string PyVal) (e : Exn) :
  TranslationFileField.__init__ cls translated_field language kwargs = Raise e
  ↔ (is_Some (kwargs !! "primary_key") ∧ e = TypeError "primary_key")
    ∨ (kwargs !! "primary_key" = None ∧ is_Some (kwargs !! "unique")
       ∧ e = TypeError "unique")
    ∨ (kwargs !! "primary_key" = None ∧ kwargs !! "unique" = None
       ∧ attrs (field_dict translated_field) !! "upload_to" = None
       ∧ e = KeyError "upload_to").
Proof.
  unfold TranslationFileField.__init__.
  destruct (kwargs !! "primary_key") as [pk |] eqn:Hpk.
  - rewrite bool_decide_eq_true_2 by eauto. split.
    + intros [= <-]. left. eauto.
    + intros [[_ ->] | [(? & _) | (? & _)]]; done.
  - rewrite bool_decide_eq_false_2 by (by intros [? ?]).
    destruct (kwargs !! "unique") as [u |] eqn:Hu.
    + rewrite bool_decide_eq_true_2 by eauto. split.
      * intros [= <-]. right. left. eauto.
      * intros [[[? ?] _] | [(_ & _ & ->) | (_ & ? & _)]]; done.
    + rewrite bool_decide_eq_false_2 by (by intros [? ?]).
      destruct (attrs (field_dict translated_field) !! "upload_to")
        as [upload_to |] eqn:Hupload.
      * split; [discriminate |].
        intros [[[? ?] _] | [(_ & [? ?] & _) | (_ & _ & ? & _)]]; done.
      * split.
        -- intros [= <-]. by right; right.
        -- intros [[[? ?] _] | [(_ & [? ?] & _) | (_ & _ & _ & ->)]]; done.
Qed.

(** X12. A [TranslationFileField] that was constructed carries the
    [storage] keyword (the default storage without one), the wrapped
    field's [upload_to], that [upload_to] again as [generate_filename]
    when it is callable, and every other attribute as the wrapped field
    has it; it is stored under the language-suffixed name. *)
Theorem X12_file_init_attributes
    (cls : TranslationClass) (translated_field : Field) (language : string)
    (kwargs : gmap string PyVal) (self : Translation) :
  TranslationFileField.__init__ cls translated_field language kwargs = Ok self →
  ∃ upload_to,
    attrs (field_dict translated_field) !! "upload_to" = Some upload_to
    ∧ attrs (t_dict self) !! "upload_to" = Some upload_to
    ∧ attrs (t_dict self) !! "storage"
      = Some (default default_storage (kwargs !! "storage"))
    ∧ attrs (t_dict self) !! "generate_filename"
      = (if callable upload_to then Some upload_to
         else attrs (field_dict translated_field) !! "generate_filename")
    ∧ (∀ key, key ≠ "storage" → key ≠ "upload_to" →
              key ≠ "generate_filename" →
              attrs (t_dict self) !! key
              = attrs (field_dict translated_field) !! key)
    ∧ name (t_dict self)
      = build_localized_fieldname (name (field_dict translated_field)) language
    ∧ attname (t_dict self) = name (t_dict self)
    ∧ verbose_name (t_dict self)
      = build_localized_verbose_name
          (verbose_name (field_dict translated_field)) language.
Proof.
  unfold TranslationFileField.__init__.
  repeat case_bool_decide; try discriminate.
  destruct (attrs (field_dict translated_field) !! "upload_to")
    as [upload_to |] eqn:Hupload; [| discriminate].
  intros [= <-]. exists upload_to. split; [done |].
  destruct (callable upload_to); simpl;
    (split; [by simplify_map_eq |]);
    (split; [by simplify_map_eq |]);
    (split; [by simplify_map_eq |]);
    (split; [intros key ? ? ?; by simplify_map_eq |]);
    done.
Qed.

(** X13. When the caller passes a [widget] keyword, [formfield] hands the
    base class exactly the caller's keyword arguments: the widget of the
    wrapped field's form field is not imposed; and when the wrapped
    field's [formfield] fails, so does [formfield], with the same
    exception (both variants). *)
Theorem X13_formfield_respects_caller_widget
    (self : Translation) (args : list PyVal) (kwargs : gmap string PyVal) :
  (is_Some (kwargs !! "widget") →
   returns (Field_formfield (translated_field self) args kwargs) →
   TranslationField.formfield self args kwargs
   = super_formfield self args kwargs
   ∧ TranslationFileField.formfield self args kwargs
     = super_formfield self args kwargs)
  ∧ (∀ e, Field_formfield (translated_field self) args kwargs = Raise e →
          TranslationField.formfield self args kwargs = Raise e
          ∧ TranslationFileField.formfield self args kwargs = Raise e).
Proof.
  unfold TranslationField.formfield, TranslationFileField.formfield.
  split.
  - intros [w Hw] Hreturns.
    destruct (Field_formfield (translated_field self) args kwargs)
      as [trans_formfield | e]; [| done]. simpl.
    assert (Hsame : kwargs ∪ {[ "widget" := type_of (widget trans_formfield) ]}
                    = kwargs).
    { apply map_eq. intros key. rewrite lookup_union.
      destruct (decide (key = "widget")) as [-> | Hne].
      - by rewrite Hw, lookup_singleton_eq.
      - rewrite lookup_singleton_ne by done. by destruct (kwargs !! key). }
    by rewrite Hsame.
  - intros e ->. done.
Qed.

End field_extras.

Lemma X8_pre_save_is_base_witness :
  (language title_de ≠ DEFAULT_LANGUAGE en_de ∨ false = true)
  ∧ TranslationField.pre_save en_de title_de hello_news false
    = Ok (VStr "Hallo", hello_news).
Proof.
  assert (Hcase : language title_de ≠ DEFAULT_LANGUAGE en_de ∨ false = true)
    by (left; discriminate).
  split; [exact Hcase |].
  exact (eq_trans
           (proj1 (X8_pre_save_is_base_pre_save (H := plain_django) en_de
                     title_de hello_news false Hcase))
           eq_refl).
Defined.

Lemma X9_pre_save_fails_witness :
  super_pre_save title_en orphan_news false = Raise (AttributeError "title_en")
  ∧ TranslationField.pre_save en_de title_en orphan_news false
    = Raise (AttributeError "title_en").
Proof.
  assert (Hsuper : super_pre_save title_en orphan_news false
                   = Raise (AttributeError "title_en"))
    by (vm_compute; reflexivity).
  destruct (X9_pre_save_fails_and_returns_like_base (H := plain_django) en_de
              title_en orphan_news false) as (Hfield & _).
  split; [exact Hsuper |].
  exact (proj2 (Hfield (AttributeError "title_en")) Hsuper).
Defined.

Lemma X10_get_prep_value_variants_witness :
  Field_get_prep_value (translated_field title_de) VNone = Ok VNone
  ∧ TranslationFileField.get_prep_value title_de (VFile (Some "a.pdf"))
    = TranslationField.get_prep_value title_de (VFile (Some "a.pdf")).
Proof.
  assert (Hnone : Field_get_prep_value (translated_field title_de) VNone
                  = Ok VNone) by reflexivity.
  split; [exact Hnone |].
  exact (X10_get_prep_value_variants_agree (H := plain_django) title_de Hnone
           (VFile (Some "a.pdf"))).
Defined.

Lemma X11_file_init_failures_witness :
  TranslationFileField.__init__ TranslationFileField_class file_field "de"
    {[ "unique" := VBool true ]}
  = Raise (TypeError "unique").
Proof.
  apply (proj2 (X11_file_init_failures (H := plain_django)
                  TranslationFileField_class file_field "de"
                  {[ "unique" := VBool true ]} (TypeError "unique"))).
  right. left. split; [reflexivity |]. split; [| reflexivity].
  exists (VBool true). reflexivity.
Defined.

Lemma X12_file_init_attributes_witness :
  ∃ self,
    TranslationFileField.__init__ TranslationImageField_class image_field "de" ∅
    = Ok self
    ∧ attrs (t_dict self) !! "generate_filename" = Some (VFunc "picture_path")
    ∧ attrs (t_dict self) !! "storage" = Some (VObj "default_storage")
    ∧ name (t_dict self) = "picture_de".
Proof.
  destruct (TranslationFileField.__init__ TranslationImageField_class
              image_field "de" ∅) as [self | e] eqn:Hinit;
    [| vm_compute in Hinit; discriminate].
  exists self. split; [reflexivity |].
  destruct (X12_file_init_attributes (H := plain_django)
              TranslationImageField_class image_field "de" ∅ self Hinit)
    as (upload_to & Hupload & _ & Hstorage & Hgenerate & _ & Hname & _).
  assert (Hfunc : upload_to = VFunc "picture_path")
    by (vm_compute in Hupload; congruence).
  rewrite Hfunc in Hgenerate.
  split; [exact Hgenerate |]. split; [exact Hstorage |]. exact Hname.
Defined.

Lemma X13_formfield_respects_witness :
  is_Some (({[ "widget" := VClass "TinyMCE" ]} : gmap string PyVal) !! "widget")
  ∧ returns (Field_formfield (translated_field title_de) []
               {[ "widget" := VClass "TinyMCE" ]})
  ∧ TranslationField.formfield title_de [] {[ "widget" := VClass "TinyMCE" ]}
    = Ok (mkFormField (mkWidget "TinyMCE")).
Proof.
  assert (Hwidget : is_Some (({[ "widget" := VClass "TinyMCE" ]}
                              : gmap string PyVal) !! "widget"))
    by (exists (VClass "TinyMCE"); reflexivity).
  assert (Hreturns : returns (Field_formfield (translated_field title_de) []
                                {[ "widget" := VClass "TinyMCE" ]}))
    by exact I.
  split; [exact Hwidget |]. split; [exact Hreturns |].
  exact (eq_trans
           (proj1 (proj1 (X13_formfield_respects_caller_widget
                            (H := plain_django) title_de []
                            {[ "widget" := VClass "TinyMCE" ]})
                         Hwidget Hreturns))
           eq_refl).
Defined.

(** ** Further properties of the factory *)

Lemma find_field_Raise (fields : list Field) (field_name : string) (e : Exn) :
  find_field fields field_name = Raise e
  ↔ e = FieldDoesNotExist field_name
    ∧ Forall (λ f, name (field_dict f) ≠ field_name) fields.
Proof.
  induction fields as [| f fields IH]; simpl.
  - split; [by intros [= <-] | by intros [-> _]].
  - destruct (String.eqb_spec (name (field_dict f)) field_name) as [Heq | Hne].
    + split; [discriminate |]. intros [_ Hall].
      by apply Forall_cons in Hall as [? _].
    + rewrite IH. split.
      * intros [-> Hall]. split; [done |]. by constructor.
      * intros [-> Hall]. split; [done |]. by apply Forall_cons in Hall as [_ ?].
Qed.

Lemma find_field_elem_of (fields : list Field) (field_name : string) (field : Field) :
  find_field fields field_name = Ok field → field ∈ fields.
Proof.
  induction fields as [| f fields IH]; simpl; [discriminate |].
  destruct (String.eqb (name (field_dict f)) field_name).
  - intros [= <-]. by left.
  - intros Hfound. right. by apply IH.
Qed.

Section factory_extras.
Context `{Django} (settings : Settings).

Ltac factory_cases field Hfield :=
  unfold create_translation_field;
  destruct (get_field _ _) as [field | ?] eqn:Hfield;
  cbn [mbind Result_bind];
  [ destruct (negb _) eqn:Hcond;
    [| destruct (isinstance field [ImageField]) eqn:Himage;
       [| destruct (isinstance field [FileField]) eqn:Hfile] ] |].

Ltac file_init_cases :=
  unfold TranslationFileField.__init__;
  rewrite ?lookup_empty;
  rewrite ?bool_decide_eq_false_2 by (by intros [? ?]);
  destruct (attrs _ !! "upload_to") eqn:Hupload.

(** X14. The factory raises [FieldDoesNotExist] exactly when the model has
    no field of the requested name, and the exception names that field. *)
Theorem X14_factory_unknown_field
    (model : Model) (field_name lang missing : string) :
  create_translation_field settings model field_name lang
  = Raise (FieldDoesNotExist missing)
  ↔ missing = field_name
    ∧ Forall (λ f, name (field_dict f) ≠ field_name) (_meta_fields model).
Proof.
  split.
  - factory_cases field Hfield; try discriminate; try (file_init_cases; discriminate).
    intros [= ->].
    apply find_field_Raise in Hfield as [[= ->] Hnone]. done.
  - intros [-> Hnone]. unfold create_translation_field.
    assert (Hfield : get_field model field_name
                     = Raise (FieldDoesNotExist field_name))
      by (by apply find_field_Raise).
    by rewrite Hfield.
Qed.

(** X15. Whatever field the factory returns wraps a field of the model
    that bears the requested name, for the requested language; it is
    stored under the language-suffixed name, carries the language-suffixed
    verbose name, and is optional. *)
Theorem X15_factory_result
    (model : Model) (field_name lang : string) (self : Translation) :
  create_translation_field settings model field_name lang = Ok self →
  translated_field self ∈ _meta_fields model
  ∧ shadow_of self = (field_name, lang)
  ∧ name (t_dict self) = build_localized_fieldname field_name lang
  ∧ attname (t_dict self) = build_localized_fieldname field_name lang
  ∧ verbose_name (t_dict self)
    = build_localized_verbose_name
        (verbose_name (field_dict (translated_field self))) lang
  ∧ null (t_dict self) = true
  ∧ blank (t_dict self) = true.
Proof.
  factory_cases field Hfield; try discriminate;
    try (file_init_cases; try discriminate);
    intros [= <-];
    pose proof (find_field_name _ _ _ Hfield) as Hname;
    apply find_field_elem_of in Hfield;
    unfold shadow_of; simpl; rewrite Hname; done.
Qed.

(** X16. Whether the factory accepts a field, how it fails, and which
    wrapping class it picks do not depend on the language. *)
Theorem X16_factory_outcome_ignores_language
    (model : Model) (field_name lang1 lang2 : string) :
  (∀ e, create_translation_field settings model field_name lang1 = Raise e
        ↔ create_translation_field settings model field_name lang2 = Raise e)
  ∧ (∀ self1,
       create_translation_field settings model field_name lang1 = Ok self1 →
       ∃ self2,
         create_translation_field settings model field_name lang2 = Ok self2
         ∧ t_class self2 = t_class self1
         ∧ translated_field self2 = translated_field self1
         ∧ attrs (t_dict self2) = attrs (t_dict self1)).
Proof.
  split.
  - intros e.
    factory_cases field Hfield; try done; file_init_cases; done.
  - intros self1.
    factory_cases field Hfield; try discriminate;
      try (file_init_cases; try discriminate);
      intros [= <-]; eexists; (split; [reflexivity |]); done.
Qed.

(** X17. The factory fails in three ways only: [FieldDoesNotExist] for a
    name the model lacks, [ImproperlyConfigured] naming the class of an
    unsupported field, and [KeyError] for a file field without
    [upload_to]; it never raises the [TypeError] of the file
    constructor. *)
Theorem X17_factory_failures
    (model : Model) (field_name lang : string) (e : Exn) :
  create_translation_field settings model field_name lang = Raise e →
  e = FieldDoesNotExist field_name
  ∨ ∃ field,
      get_field model field_name = Ok field
      ∧ ((e = ImproperlyConfigured (__name__ (__class__ field))
          ∧ isinstance field [CharField; TextField; FileField; ImageField]
            = false
          ∧ __name__ (__class__ field) ∉ CUSTOM_FIELDS settings)
         ∨ (e = KeyError "upload_to"
            ∧ isinstance field [FileField] = true
            ∧ attrs (field_dict field) !! "upload_to" = None)).
Proof.
  factory_cases field Hfield.
  - intros [= <-]. right. exists field. split; [done |]. left.
    apply negb_true_iff, orb_false_iff in Hcond as [Hinst Hcustom].
    split; [done |]. split; [done |]. by apply bool_decide_eq_false in Hcustom.
  - file_init_cases; [discriminate |].
    intros [= <-]. right. exists field. split; [done |]. right.
    split; [done |]. split; [| done].
    revert Himage. unfold isinstance. simpl.
    by destruct (django_base (__class__ field)).
  - file_init_cases; [discriminate |].
    intros [= <-]. right. exists field. split; [done |]. by right.
  - discriminate.
  - intros [= <-]. left.
    by apply find_field_Raise in Hfield as [-> _].
Qed.

End factory_extras.

(** X18. Extending [CUSTOM_FIELDS] never takes a field away: a field the
    factory produced under some settings is produced unchanged under any
    settings whose [CUSTOM_FIELDS] contain the former ones, whatever
    their languages are. *)
Theorem X18_custom_fields_monotone `{Django}
    (settings settings' : Settings) (model : Model) (field_name lang : string)
    (self : Translation) :
  (∀ cls_name, cls_name ∈ CUSTOM_FIELDS settings →
               cls_name ∈ CUSTOM_FIELDS settings') →
  create_translation_field settings model field_name lang = Ok self →
  create_translation_field settings' model field_name lang = Ok self.
Proof.
  intros Hsub. unfold create_translation_field.
  destruct (get_field model field_name) as [field | e]; [| done].
  cbn [mbind Result_bind].
  destruct (isinstance field [CharField; TextField; FileField; ImageField]);
    [done |].
  rewrite !orb_false_l.
  destruct (bool_decide (__name__ (__class__ field) ∈ CUSTOM_FIELDS settings))
    eqn:Hin; [| discriminate].
  apply bool_decide_eq_true in Hin.
  by rewrite (bool_decide_eq_true_2 _ (Hsub _ Hin)).
Qed.

Lemma X14_factory_unknown_field_witness :
  create_translation_field en_de News "subtitle" "de"
  = Raise (FieldDoesNotExist "subtitle").
Proof.
  apply (proj2 (X14_factory_unknown_field (H := plain_django) en_de News
                  "subtitle" "de" "subtitle")).
  split; [reflexivity |].
  apply (bool_decide_unpack _). vm_compute. exact I.
Defined.

(** ** The descriptor of file fields *)

Section file_descriptor_facts.
Import TranslationFileDescriptor.

Lemma fresh_object (instance : FileInstance) :
  objects instance !! fresh (dom (objects instance)) = None.
Proof. apply not_elem_of_dom, is_fresh. Qed.

(** One state is a later state of another: the class is the same, no
    object disappears or changes its name, and a bound object stays as it
    is. *)
Let later (before after : FileInstance) : Prop :=
  file_descriptors after = file_descriptors before
  ∧ ∀ l ff, objects before !! l = Some ff →
      ∃ ff', objects after !! l = Some ff'
             ∧ ff_name ff' = ff_name ff
             ∧ (is_Some (ff_field ff) → ff' = ff).

(** A value on which the chain of [wrap] does nothing. *)
Let settled (instance : FileInstance) (v : FileVal) : Prop :=
  match v with
  | FRef l =>
    match objects instance !! l with
    | Some ff => is_Some (ff_field ff)
    | None => True
    end
  | FOther _ => True
  | _ => False
  end.

Lemma later_refl (instance : FileInstance) : later instance instance.
Proof. split; [done |]. intros l ff Hl. by exists ff. Qed.

Lemma later_trans (i1 i2 i3 : FileInstance) :
  later i1 i2 → later i2 i3 → later i1 i3.
Proof.
  intros [Hd12 Ho12] [Hd23 Ho23]. split; [congruence |].
  intros l ff Hl.
  destruct (Ho12 l ff Hl) as (ff2 & Hl2 & Hname2 & Hbound2).
  destruct (Ho23 l ff2 Hl2) as (ff3 & Hl3 & Hname3 & Hbound3).
  exists ff3. split; [done |]. split; [congruence |].
  intros Hbound. rewrite <- (Hbound2 Hbound).
  apply Hbound3. by rewrite (Hbound2 Hbound).
Qed.

Lemma later_alloc (instance : FileInstance) (ff : FieldFile) :
  later instance
    (set_object instance (fresh (dom (objects instance))) ff).
Proof.
  split; [done |]. intros l old Hl. exists old. simpl.
  rewrite lookup_insert_ne; [done |].
  intros <-. by rewrite fresh_object in Hl.
Qed.

Lemma later_dict_setitem (instance : FileInstance) (key : string) (v : FileVal) :
  later instance (dict_setitem instance key v).
Proof. split; [done |]. intros l ff Hl. by exists ff. Qed.

Lemma wrap_later (instance : FileInstance) (field field_name : string)
    (file : FileVal) :
  later instance (wrap instance field field_name file).
Proof.
  destruct file as [| s | f | l | o]; simpl; try apply later_refl.
  - apply later_alloc.
  - apply later_alloc.
  - split; [done |]. intros l old Hl. exists old. simpl.
    rewrite !lookup_insert_ne; [done | |];
      intros <-; by rewrite fresh_object in Hl.
  - destruct (objects instance !! l) as [ff |] eqn:Hobj; [| apply later_refl].
    destruct (ff_field ff) eqn:Hfield; [apply later_refl |].
    split; [done |]. intros l' old Hl'. simpl.
    destruct (decide (l = l')) as [<- | Hne].
    + rewrite lookup_insert_eq. eexists. split; [done |].
      assert (old = ff) as -> by congruence.
      split; [done |]. rewrite Hfield. by intros [? ?].
    + rewrite lookup_insert_ne by done. by exists old.
Qed.

Lemma wrap_dict_other (instance : FileInstance) (field field_name : string)
    (file : FileVal) (key : string) :
  key ≠ field_name →
  file_dict (wrap instance field field_name file) !! key
  = file_dict instance !! key.
Proof.
  intros Hne.
  destruct file as [| s | f | l | o]; simpl;
    rewrite ?lookup_insert_ne by done; try done.
  destruct (objects instance !! l) as [ff |]; [| done].
  by destruct (ff_field ff).
Qed.

Lemma wrap_settled (instance : FileInstance) (field field_name : string)
    (file : FileVal) :
  settled instance file → wrap instance field field_name file = instance.
Proof.
  destruct file as [| s | f | l | o]; simpl; try done.
  destruct (objects instance !! l) as [ff |]; [| done].
  by intros [bound ->].
Qed.

(** After the chain ran on the content of a slot, the slot holds a
    settled value that is truthy exactly when the content was. *)
Lemma wrap_slot (instance : FileInstance) (field field_name : string)
    (file : FileVal) :
  file_dict instance !! field_name = Some file →
  ∃ v, file_dict (wrap instance field field_name file) !! field_name = Some v
       ∧ settled (wrap instance field field_name file) v
       ∧ truthy (wrap instance field field_name file) v = truthy instance file.
Proof.
  intros Hslot.
  destruct file as [| s | f | l | o]; simpl.
  - eexists. rewrite lookup_insert_eq. split; [done |]. simpl.
    rewrite lookup_insert_eq. simpl. eauto.
  - eexists. rewrite lookup_insert_eq. split; [done |]. simpl.
    rewrite lookup_insert_eq. simpl. eauto.
  - eexists. rewrite lookup_insert_eq. split; [done |]. simpl.
    rewrite lookup_insert_eq. simpl. eauto.
  - destruct (objects instance !! l) as [ff |] eqn:Hobj.
    + destruct (ff_field ff) eqn:Hfield.
      * exists (FRef l). split; [done |]. simpl. rewrite Hobj, Hfield. eauto.
      * exists (FRef l). split; [done |]. simpl.
        rewrite lookup_insert_eq. simpl. eauto.
    + exists (FRef l). split; [done |]. simpl. by rewrite Hobj.
  - exists (FOther o). by repeat split.
Qed.

Lemma settled_later (before after : FileInstance) (v : FileVal) :
  later before after → settled before v → truthy before v = false →
  settled after v ∧ truthy after v = false.
Proof.
  intros [_ Hobjects]. destruct v as [| s | f | l | o]; simpl; try done.
  destruct (objects before !! l) as [ff |] eqn:Hobj; [| done].
  intros Hbound Hfalsy.
  destruct (Hobjects l ff Hobj) as (ff' & -> & Hname & Hsame).
  by rewrite (Hsame Hbound).
Qed.

(** What [hasattr] followed by [getattr] does on an attribute whose slot
    is filled. *)
Lemma hasattr_getattr_present (instance : FileInstance) (attr : string)
    (v0 : FileVal) :
  file_dict instance !! attr = Some v0 →
  ∃ v instance',
    hasattr instance attr = (true, instance')
    ∧ getattr instance' attr = Return (v, instance')
    ∧ file_dict instance' !! attr = Some v
    ∧ truthy instance' v = truthy instance v0
    ∧ later instance instance'
    ∧ (∀ key, key ≠ attr →
              file_dict instance' !! key = file_dict instance !! key)
    ∧ (attr ∈ file_descriptors instance →
       settled instance' v ∧ instance' = wrap instance attr attr v0)
    ∧ (attr ∉ file_descriptors instance → instance' = instance ∧ v = v0).
Proof.
  intros Hslot. unfold hasattr, getattr.
  destruct (decide (attr ∈ file_descriptors instance)) as [Hin | Hnotin].
  - rewrite (bool_decide_eq_true_2 _ Hin).
    destruct (wrap_slot instance attr attr v0 Hslot)
      as (v & Hv & Hsettled & Htruthy).
    pose proof (wrap_later instance attr attr v0) as Hlater.
    exists v, (wrap instance attr attr v0).
    unfold FileDescriptor_get, dict_getitem.
    rewrite Hslot. cbn [mbind Outcome_bind]. rewrite Hv.
    cbn [mbind Outcome_bind].
    rewrite (proj1 Hlater), (bool_decide_eq_true_2 _ Hin).
    cbn [mbind Outcome_bind].
    rewrite (wrap_settled _ _ _ _ Hsettled), Hv. cbn [mbind Outcome_bind].
    do 5 (split; [done |]).
    split; [intros key Hkey; by apply wrap_dict_other |].
    split; [done |]. by intros Hnotin.
  - rewrite (bool_decide_eq_false_2 _ Hnotin), Hslot.
    exists v0, instance.
    rewrite (bool_decide_eq_false_2 _ Hnotin), Hslot.
    do 4 (split; [done |]).
    split; [apply later_refl |]. split; [done |].
    split; [by intros Hin | done].
Qed.

Lemma hasattr_absent (instance : FileInstance) (attr : string) :
  file_dict instance !! attr = None → hasattr instance attr = (false, instance).
Proof.
  intros Hslot. unfold hasattr, getattr, FileDescriptor_get, dict_getitem.
  rewrite Hslot. by case_bool_decide.
Qed.

(** X19. Reading the original attribute of a file field on an instance
    that has no attribute for the active language raises
    [UnboundLocalError]: the name [file] was never assigned. (On the
    class the read raises [AttributeError].) *)
Theorem X19_file_get_without_localized_attribute
    (self : t) (st : Locale) (instance : FileInstance) :
  file_dict instance
    !! build_localized_fieldname (name self) (get_language st) = None →
  __get__ self st (Some instance) = Throw (UnboundLocalError "file")
  ∧ __get__ self st None = Throw (Builtin (AttributeError (name self))).
Proof.
  intros Habsent. split; [| done].
  unfold __get__. by rewrite (hasattr_absent _ _ Habsent).
Qed.

Lemma falsy_later (before after : FileInstance) (v : FileVal) :
  later before after → truthy before v = false → truthy after v = false.
Proof.
  intros [_ Hobjects]. destruct v as [| s | f | l | o]; simpl; try done.
  destruct (objects before !! l) as [ff |] eqn:Hobj; [| done].
  destruct (Hobjects l ff Hobj) as (ff' & -> & -> & _). done.
Qed.

Lemma later_fresh (before after : FileInstance) (l : nat) :
  later before after → objects after !! l = None → objects before !! l = None.
Proof.
  intros [_ Hobjects] Hnone.
  destruct (objects before !! l) as [ff |] eqn:Hobj; [| done].
  destruct (Hobjects l ff Hobj) as (ff' & Hsome & _). congruence.
Qed.

(** [__get__] on an instance whose localized slot is filled, after the
    [hasattr] and [getattr] calls were run. *)
Lemma file_get_present (self : t) (st : Locale) (instance : FileInstance)
    (v0 : FileVal) :
  let loc_field_name :=
    build_localized_fieldname (name self) (get_language st) in
  file_dict instance !! loc_field_name = Some v0 →
  ∃ v1 instance1,
    file_dict instance1 !! loc_field_name = Some v1
    ∧ truthy instance1 v1 = truthy instance v0
    ∧ later instance instance1
    ∧ (∀ key, key ≠ loc_field_name →
              file_dict instance1 !! key = file_dict instance !! key)
    ∧ (loc_field_name ∈ file_descriptors instance →
       settled instance1 v1
       ∧ instance1 = wrap instance loc_field_name loc_field_name v0)
    ∧ (loc_field_name ∉ file_descriptors instance →
       instance1 = instance ∧ v1 = v0)
    ∧ __get__ self st (Some instance)
      = (if truthy instance v0 then
           let instance2 := wrap instance1 (field self) loc_field_name v1 in
           v ← dict_getitem instance2 loc_field_name;
           Return (v, instance2)
         else if is_None (fallback_value self) then
           file ← dict_getitem instance1 (name self);
           let instance2 := wrap instance1 (field self) (name self) file in
           v ← dict_getitem instance2 (name self);
           Return (v, instance2)
         else
           let instance2 :=
             wrap instance1 (field self) (name self) (fallback_value self) in
           v ← dict_getitem instance2 (name self);
           Return (v, instance2)).
Proof.
  intros loc_field_name Hslot.
  destruct (hasattr_getattr_present instance loc_field_name v0 Hslot)
    as (v1 & instance1 & Hhas & Hget & Hslot1 & Htruthy & Hlater & Hother
        & Hin & Hnotin).
  exists v1, instance1. do 6 (split; [done |]).
  unfold __get__. fold loc_field_name.
  rewrite Hhas, Hget. cbn [mbind Outcome_bind].
  rewrite Htruthy. unfold get_default_instance.
  destruct (truthy instance v0).
  - assert (Hitem : dict_getitem instance1 loc_field_name = Return v1)
      by (unfold dict_getitem; by rewrite Hslot1).
    by rewrite Hitem.
  - destruct (is_None (fallback_value self)); [| done].
    by destruct (dict_getitem instance1 (name self)).
Qed.

Lemma file_get_localized
    (self : t) (st : Locale) (instance : FileInstance) (v0 : FileVal) :
  let loc_field_name :=
    build_localized_fieldname (name self) (get_language st) in
  file_dict instance !! loc_field_name = Some v0 →
  truthy instance v0 = true →
  ∃ v instance',
    __get__ self st (Some instance) = Return (v, instance')
    ∧ file_dict instance' !! loc_field_name = Some v
    ∧ truthy instance' v = true
    ∧ (∀ key, key ≠ loc_field_name →
              file_dict instance' !! key = file_dict instance !! key)
    ∧ (∀ s, v0 = FStr s →
         ∃ l, v = FRef l
              ∧ objects instance !! l = None
              ∧ objects instance' !! l
                = Some {| ff_name := Some s;
                          ff_field :=
                            Some (if decide (loc_field_name
                                             ∈ file_descriptors instance)
                                  then loc_field_name else field self);
                          ff_file := None;
                          ff_committed := true |}).
Proof.
  intros loc_field_name Hslot Htruthy.
  destruct (file_get_present self st instance v0 Hslot)
    as (v1 & instance1 & Hslot1 & Htruthy1 & Hlater & Hother & Hin & Hnotin
        & ->).
  subst loc_field_name.
  set (loc_field_name :=
         build_localized_fieldname (name self) (get_language st)) in *.
  rewrite Htruthy. rewrite Htruthy in Htruthy1. cbn zeta.
  destruct (wrap_slot instance1 (field self) loc_field_name v1 Hslot1)
    as (v & Hv & Hsettled & Htruthy2).
  exists v, (wrap instance1 (field self) loc_field_name v1).
  unfold dict_getitem. rewrite Hv. cbn [mbind Outcome_bind].
  split; [done |]. split; [done |]. split; [congruence |]. split.
  - intros key Hkey. rewrite wrap_dict_other by done. by apply Hother.
  - intros s ->.
    destruct (decide (loc_field_name ∈ file_descriptors instance))
      as [Hd | Hd].
    + destruct (Hin Hd) as [Hsettled1 ->].
      rewrite (wrap_settled _ _ _ _ Hsettled1) in Hv |- *.
      simpl in Hv |- *. rewrite lookup_insert_eq in Hv.
      injection Hv as <-. eexists. split; [done |].
      split; [apply fresh_object |]. by rewrite lookup_insert_eq.
    + destruct (Hnotin Hd) as [-> ->].
      simpl in Hv |- *. rewrite lookup_insert_eq in Hv.
      injection Hv as <-. eexists. split; [done |].
      split; [apply fresh_object |]. by rewrite lookup_insert_eq.
Qed.

(** X20. When the slot of the active language holds a truthy value, the
    read returns the content of that slot and changes no other slot, the
    original one included; a file name found there comes back as a new
    [FieldFile] of that name, bound to the shadow field when the class has
    Django's descriptor for it and to the wrapped field otherwise. *)
Theorem X20_file_get_localized
    (self : t) (st : Locale) (instance : FileInstance) (v0 : FileVal) :
  let loc_field_name :=
    build_localized_fieldname (name self) (get_language st) in
  file_dict instance !! loc_field_name = Some v0 →
  truthy instance v0 = true →
  ∃ v instance',
    __get__ self st (Some instance) = Return (v, instance')
    ∧ file_dict instance' !! loc_field_name = Some v
    ∧ truthy instance' v = true
    ∧ (∀ key, key ≠ loc_field_name →
              file_dict instance' !! key = file_dict instance !! key)
    ∧ (∀ s, v0 = FStr s →
         ∃ l, v = FRef l
              ∧ objects instance !! l = None
              ∧ objects instance' !! l
                = Some {| ff_name := Some s;
                          ff_field :=
                            Some (if decide (loc_field_name
                                             ∈ file_descriptors instance)
                                  then loc_field_name else field self);
                          ff_file := None;
                          ff_committed := true |}).
Proof. exact (file_get_localized self st instance v0). Qed.

(** X21. When the slot of the active language holds a falsy value and no
    fallback value is configured, the read is a read of the original
    slot: [KeyError] when that slot is missing; otherwise its content,
    which a file name turns into a new [FieldFile] of that name bound to
    the wrapped field, and no slot besides these two changes. *)
Theorem X21_file_get_falls_back_to_original_slot
    (self : t) (st : Locale) (instance : FileInstance) (v0 : FileVal) :
  let loc_field_name :=
    build_localized_fieldname (name self) (get_language st) in
  file_dict instance !! loc_field_name = Some v0 →
  truthy instance v0 = false →
  fallback_value self = FNone →
  (file_dict instance !! name self = None →
   __get__ self st (Some instance) = Throw (Builtin (KeyError (name self))))
  ∧ (∀ original, file_dict instance !! name self = Some original →
       ∃ v instance',
         __get__ self st (Some instance) = Return (v, instance')
         ∧ file_dict instance' !! name self = Some v
         ∧ (∀ key, key ≠ loc_field_name → key ≠ name self →
                   file_dict instance' !! key = file_dict instance !! key)
         ∧ (∀ s, original = FStr s →
              ∃ l, v = FRef l
                   ∧ objects instance !! l = None
                   ∧ objects instance' !! l
                     = Some {| ff_name := Some s;
                               ff_field := Some (field self);
                               ff_file := None;
                               ff_committed := true |})).
Proof.
  intros loc_field_name Hslot Hfalsy Hfb.
  assert (Hfresh : name self ≠ loc_field_name).
  { intros Heq. symmetry in Heq.
    by apply build_localized_fieldname_fresh in Heq. }
  destruct (file_get_present self st instance v0 Hslot)
    as (v1 & instance1 & Hslot1 & Htruthy1 & Hlater & Hother & _ & _ & ->).
  subst loc_field_name.
  set (loc_field_name :=
         build_localized_fieldname (name self) (get_language st)) in *.
  rewrite Hfalsy, Hfb. simpl is_None. cbn iota.
  split.
  - intros Hmissing.
    assert (Hitem : dict_getitem instance1 (name self)
                    = Throw (Builtin (KeyError (name self))))
      by (unfold dict_getitem; by rewrite (Hother _ Hfresh), Hmissing).
    by rewrite Hitem.
  - intros original Horiginal.
    assert (Horiginal1 : file_dict instance1 !! name self = Some original)
      by (by rewrite (Hother _ Hfresh)).
    assert (Hitem : dict_getitem instance1 (name self) = Return original)
      by (unfold dict_getitem; by rewrite Horiginal1).
    rewrite Hitem. cbn [mbind Outcome_bind].
    destruct (wrap_slot instance1 (field self) (name self) original Horiginal1)
      as (v & Hv & _ & _).
    exists v, (wrap instance1 (field self) (name self) original).
    unfold dict_getitem. rewrite Hv. cbn [mbind Outcome_bind].
    split; [done |]. split; [done |]. split.
    + intros key Hloc Hname. rewrite wrap_dict_other by done. by apply Hother.
    + intros s ->. simpl in Hv |- *. rewrite lookup_insert_eq in Hv.
      injection Hv as <-. eexists. split; [done |].
      split; [| by rewrite lookup_insert_eq].
      apply (later_fresh instance instance1); [done | apply fresh_object].
Qed.

Lemma file_get_string_fallback
    (self : t) (st : Locale) (instance : FileInstance) (v0 : FileVal)
    (s : string) :
  let loc_field_name :=
    build_localized_fieldname (name self) (get_language st) in
  file_dict instance !! loc_field_name = Some v0 →
  truthy instance v0 = false →
  fallback_value self = FStr s →
  ∃ l instance' v1,
    __get__ self st (Some instance) = Return (FRef l, instance')
    ∧ file_dict instance' !! name self = Some (FRef l)
    ∧ objects instance !! l = None
    ∧ objects instance' !! l
      = Some {| ff_name := Some s; ff_field := Some (field self);
                ff_file := None; ff_committed := true |}
    ∧ file_dict instance' !! loc_field_name = Some v1
    ∧ truthy instance' v1 = false.
Proof.
  intros loc_field_name Hslot Hfalsy Hfb.
  assert (Hfresh : loc_field_name ≠ name self)
    by apply build_localized_fieldname_fresh.
  destruct (file_get_present self st instance v0 Hslot)
    as (v1 & instance1 & Hslot1 & Htruthy1 & Hlater & Hother & _ & _ & ->).
  subst loc_field_name.
  set (loc_field_name :=
         build_localized_fieldname (name self) (get_language st)) in *.
  rewrite Hfalsy, Hfb. simpl is_None. cbn iota zeta.
  pose proof (wrap_later instance1 (field self) (name self) (FStr s)) as Hlater2.
  pose proof (wrap_dict_other instance1 (field self) (name self) (FStr s)
                loc_field_name Hfresh) as Hkept.
  revert Hlater2 Hkept. simpl. unfold dict_getitem. simpl.
  rewrite lookup_insert_eq. cbn [mbind Outcome_bind].
  intros Hlater2 Hkept.
  eexists _, _, v1. split; [reflexivity |]. simpl.
  rewrite !lookup_insert_eq. split; [done |].
  split; [apply (later_fresh instance instance1); [done | apply fresh_object] |].
  split; [done |]. split; [by rewrite Hkept |].
  apply (falsy_later instance1); [done | congruence].
Qed.

(** X22. With a file name configured as fallback value, a read under a
    language whose slot is falsy replaces the content of the original slot
    by a new [FieldFile] named after the fallback value and returns it,
    whatever the original slot held and even when it was missing. *)
Theorem X22_file_get_string_fallback_overwrites_original
    (self : t) (st : Locale) (instance : FileInstance) (v0 : FileVal)
    (s : string) :
  file_dict instance
    !! build_localized_fieldname (name self) (get_language st) = Some v0 →
  truthy instance v0 = false →
  fallback_value self = FStr s →
  ∃ l instance',
    __get__ self st (Some instance) = Return (FRef l, instance')
    ∧ file_dict instance' !! name self = Some (FRef l)
    ∧ objects instance !! l = None
    ∧ objects instance' !! l
      = Some {| ff_name := Some s; ff_field := Some (field self);
                ff_file := None; ff_committed := true |}.
Proof.
  intros Hslot Hfalsy Hfb.
  destruct (file_get_string_fallback self st instance v0 s Hslot Hfalsy Hfb)
    as (l & instance' & _ & Hget & Hname & Hnew & Hobj & _).
  by exists l, instance'.
Qed.

(** X23. With a file name configured as fallback value, two reads in a row
    under a language whose slot is falsy return two different
    [FieldFile] objects: every such read makes a new one. *)
Theorem X23_file_get_string_fallback_makes_new_objects
    (self : t) (st : Locale) (instance : FileInstance) (v0 : FileVal)
    (s : string) :
  file_dict instance
    !! build_localized_fieldname (name self) (get_language st) = Some v0 →
  truthy instance v0 = false →
  fallback_value self = FStr s →
  ∃ l1 instance1 l2 instance2,
    __get__ self st (Some instance) = Return (FRef l1, instance1)
    ∧ __get__ self st (Some instance1) = Return (FRef l2, instance2)
    ∧ l1 ≠ l2.
Proof.
  intros Hslot Hfalsy Hfb.
  destruct (file_get_string_fallback self st instance v0 s Hslot Hfalsy Hfb)
    as (l1 & instance1 & v1 & Hget1 & _ & _ & Hobj1 & Hslot1 & Hfalsy1).
  destruct (file_get_string_fallback self st instance1 v1 s Hslot1 Hfalsy1 Hfb)
    as (l2 & instance2 & _ & Hget2 & _ & Hnew & _).
  exists l1, instance1, l2, instance2.
  split; [done |]. split; [done |]. congruence.
Qed.

(** X24. Without a fallback value a read that returned can be repeated at
    will: the second read returns the same value and leaves the instance
    and its [FieldFile] objects exactly as the first read left them. *)
Theorem X24_file_get_idempotent_without_fallback
    (self : t) (st : Locale) (instance instance' : FileInstance)
    (v : FileVal) :
  fallback_value self = FNone →
  __get__ self st (Some instance) = Return (v, instance') →
  __get__ self st (Some instance') = Return (v, instance').
Proof.
  intros Hfb.
  set (loc_field_name :=
         build_localized_fieldname (name self) (get_language st)).
  assert (Hfresh : loc_field_name ≠ name self)
    by apply build_localized_fieldname_fresh.
  destruct (file_dict instance !! loc_field_name) as [v0 |] eqn:Hslot.
  2: { unfold __get__. fold loc_field_name.
       by rewrite (hasattr_absent _ _ Hslot). }
  destruct (file_get_present self st instance v0 Hslot)
    as (v1 & instance1 & Hslot1 & Htruthy1 & Hlater & Hother & Hin & _ & ->).
  fold loc_field_name in Hslot1, Hother, Hin |- *.
  assert (Hrepeat : ∀ instance2 v2,
    file_dict instance2 !! loc_field_name = Some v2 →
    (loc_field_name ∈ file_descriptors instance2 → settled instance2 v2) →
    ∃ instance3,
      instance3 = instance2
      ∧ __get__ self st (Some instance2)
        = (if truthy instance2 v2 then
             let instance4 := wrap instance3 (field self) loc_field_name v2 in
             v ← dict_getitem instance4 loc_field_name;
             Return (v, instance4)
           else
             file ← dict_getitem instance3 (name self);
             let instance4 := wrap instance3 (field self) (name self) file in
             v ← dict_getitem instance4 (name self);
             Return (v, instance4))).
  { intros instance2 v2 Hslot2 Hsettled2.
    destruct (file_get_present self st instance2 v2 Hslot2)
      as (v3 & instance3 & Hslot3 & _ & _ & _ & Hin3 & Hnotin3 & ->).
    fold loc_field_name in Hslot3, Hin3, Hnotin3 |- *.
    assert (Hsame : instance3 = instance2 ∧ v3 = v2).
    { destruct (decide (loc_field_name ∈ file_descriptors instance2))
        as [Hd | Hd]; [| by apply Hnotin3].
      destruct (Hin3 Hd) as [_ Heq].
      rewrite (wrap_settled _ _ _ _ (Hsettled2 Hd)) in Heq. subst instance3.
      split; [done | congruence]. }
    destruct Hsame as [-> ->]. exists instance2. split; [done |].
    by rewrite Hfb. }
  rewrite Hfb. simpl is_None. cbn iota.
  destruct (truthy instance v0) eqn:Htruthy; cbn zeta.
  - destruct (wrap_slot instance1 (field self) loc_field_name v1 Hslot1)
      as (v2 & Hv2 & Hsettled2 & Htruthy2).
    unfold dict_getitem at 1. rewrite Hv2. cbn [mbind Outcome_bind].
    intros [= <- <-].
    destruct (Hrepeat _ v2 Hv2 (λ _, Hsettled2)) as (? & -> & ->).
    rewrite Htruthy2, Htruthy1. cbn zeta.
    rewrite (wrap_settled _ _ _ _ Hsettled2).
    unfold dict_getitem. by rewrite Hv2.
  - destruct (file_dict instance1 !! name self) as [original |] eqn:Horiginal.
    2: { assert (Hitem : dict_getitem instance1 (name self)
                         = Throw (Builtin (KeyError (name self))))
           by (unfold dict_getitem; by rewrite Horiginal).
         by rewrite Hitem. }
    assert (Hitem : dict_getitem instance1 (name self) = Return original)
      by (unfold dict_getitem; by rewrite Horiginal).
    rewrite Hitem. cbn [mbind Outcome_bind].
    destruct (wrap_slot instance1 (field self) (name self) original Horiginal)
      as (v2 & Hv2 & Hsettled2 & _).
    pose proof (wrap_later instance1 (field self) (name self) original)
      as Hlater2.
    assert (Hitem2 : dict_getitem (wrap instance1 (field self) (name self)
                                     original) (name self) = Return v2)
      by (unfold dict_getitem; by rewrite Hv2).
    rewrite Hitem2. cbn [mbind Outcome_bind].
    intros [= <- <-].
    assert (Hslot2 : file_dict (wrap instance1 (field self) (name self)
                                  original) !! loc_field_name = Some v1)
      by (by rewrite wrap_dict_other).
    assert (Hfalsy2 : truthy (wrap instance1 (field self) (name self) original)
                        v1 = false)
      by (apply (falsy_later instance1); [done | congruence]).
    destruct (Hrepeat _ v1 Hslot2) as (? & -> & ->).
    { intros Hd. rewrite (proj1 Hlater2), (proj1 Hlater) in Hd.
      destruct (Hin Hd) as [Hsettled1 _].
      apply (settled_later instance1); [done | done | congruence]. }
    rewrite Hfalsy2.
    rewrite Hitem2. cbn [mbind Outcome_bind].
    rewrite (wrap_settled _ _ _ _ Hsettled2). by rewrite Hitem2.
Qed.

(** X25. A read never touches a slot other than the localized one and the
    original one, never changes the class, and never removes or renames a
    [FieldFile] object, whatever the fallback value is. *)
Theorem X25_file_get_frame
    (self : t) (st : Locale) (instance instance' : FileInstance)
    (v : FileVal) :
  __get__ self st (Some instance) = Return (v, instance') →
  (∀ key,
     key ≠ build_localized_fieldname (name self) (get_language st) →
     key ≠ name self →
     file_dict instance' !! key = file_dict instance !! key)
  ∧ file_descriptors instance' = file_descriptors instance
  ∧ (∀ l ff, objects instance !! l = Some ff →
       ∃ ff', objects instance' !! l = Some ff' ∧ ff_name ff' = ff_name ff).
Proof.
  set (loc_field_name :=
         build_localized_fieldname (name self) (get_language st)).
  destruct (file_dict instance !! loc_field_name) as [v0 |] eqn:Hslot.
  2: { unfold __get__. fold loc_field_name.
       by rewrite (hasattr_absent _ _ Hslot). }
  destruct (file_get_present self st instance v0 Hslot)
    as (v1 & instance1 & _ & _ & Hlater & Hother & _ & _ & ->).
  fold loc_field_name in Hother |- *.
  assert (Hframe : ∀ field_name file instance2,
    field_name = loc_field_name ∨ field_name = name self →
    instance2 = wrap instance1 (field self) field_name file →
    (∀ key, key ≠ loc_field_name → key ≠ name self →
            file_dict instance2 !! key = file_dict instance !! key)
    ∧ file_descriptors instance2 = file_descriptors instance
    ∧ (∀ l ff, objects instance !! l = Some ff →
         ∃ ff', objects instance2 !! l = Some ff' ∧ ff_name ff' = ff_name ff)).
  { intros field_name file instance2 Hkey ->.
    pose proof (later_trans _ _ _ Hlater
                  (wrap_later instance1 (field self) field_name file))
      as [Hclass Hobjects].
    split; [| split; [done |]].
    - intros key Hloc Hname. rewrite wrap_dict_other; [by apply Hother |].
      by destruct Hkey as [-> | ->].
    - intros l ff Hl. destruct (Hobjects l ff Hl) as (ff' & ? & ? & _).
      by exists ff'. }
  destruct (truthy instance v0); [| destruct (is_None (fallback_value self))];
    cbn zeta.
  - destruct (dict_getitem _ loc_field_name) as [v2 | e]; [| done].
    intros [= <- <-]. eapply Hframe; [by left | done].
  - destruct (dict_getitem instance1 (name self)) as [file | e]; [| done].
    cbn [mbind Outcome_bind].
    destruct (dict_getitem _ (name self)) as [v2 | e]; [| done].
    intros [= <- <-]. eapply Hframe; [by right | done].
  - destruct (dict_getitem _ (name self)) as [v2 | e]; [| done].
    intros [= <- <-]. eapply Hframe; [by right | done].
Qed.

(** X26. Assigning a non-empty file name to the original attribute and
    reading the attribute under the same language returns a new
    [FieldFile] of that name, while the original slot keeps the bare
    name. *)
Theorem X26_file_set_then_get
    (self : t) (st : Locale) (instance : FileInstance) (s : string) :
  s ≠ "" →
  ∃ l instance',
    __get__ self st (Some (__set__ self st instance (FStr s)))
    = Return (FRef l, instance')
    ∧ (∃ bound_to,
         objects instance' !! l
         = Some {| ff_name := Some s; ff_field := Some bound_to;
                   ff_file := None; ff_committed := true |})
    ∧ file_dict instance' !! name self = Some (FStr s).
Proof.
  intros Hs.
  set (loc_field_name :=
         build_localized_fieldname (name self) (get_language st)).
  assert (Hfresh : loc_field_name ≠ name self)
    by apply build_localized_fieldname_fresh.
  assert (Hslot : file_dict (__set__ self st instance (FStr s))
                  !! loc_field_name = Some (FStr s)).
  { unfold __set__, setattr, dict_setitem. simpl.
    fold loc_field_name. by rewrite lookup_insert_ne, lookup_insert_eq. }
  assert (Htruthy : truthy (__set__ self st instance (FStr s)) (FStr s) = true).
  { simpl. apply negb_true_iff. by apply String.eqb_neq. }
  destruct (file_get_localized self st _ (FStr s) Hslot Htruthy)
    as (v & instance' & Hget & _ & _ & Hother & Hstring).
  destruct (Hstring s eq_refl) as (l & -> & _ & Hobj).
  exists l, instance'. split; [done |]. split; [by eexists |].
  rewrite Hother by done.
  unfold __set__, setattr, dict_setitem. simpl. by rewrite lookup_insert_eq.
Qed.

End file_descriptor_facts.

(** ** The further properties at work on the sample models *)

Lemma X15_factory_result_witness :
  ∃ self,
    create_translation_field en_de News "attachment" "de" = Ok self
    ∧ translated_field self ∈ _meta_fields News
    ∧ name (t_dict self) = build_localized_fieldname "attachment" "de"
    ∧ null (t_dict self) = true.
Proof.
  destruct (create_translation_field en_de News "attachment" "de")
    as [self | e] eqn:Hcreate; [| vm_compute in Hcreate; discriminate].
  destruct (X15_factory_result (H := plain_django) en_de News "attachment" "de"
              self Hcreate) as (Hin & _ & Hname & _ & _ & Hnull & _).
  exists self. split; [reflexivity |]. split; [exact Hin |].
  split; [exact Hname | exact Hnull].
Defined.

Lemma X16_factory_outcome_witness :
  create_translation_field en_de News "visits" "en"
  = Raise (ImproperlyConfigured "IntegerField")
  ∧ create_translation_field en_de News "visits" "de"
    = Raise (ImproperlyConfigured "IntegerField").
Proof.
  assert (Hen : create_translation_field en_de News "visits" "en"
                = Raise (ImproperlyConfigured "IntegerField"))
    by (vm_compute; reflexivity).
  split; [exact Hen |].
  exact (proj1 (proj1 (X16_factory_outcome_ignores_language
                         (H := plain_django) en_de News "visits" "en" "de")
                      (ImproperlyConfigured "IntegerField")) Hen).
Defined.

Lemma X17_factory_failures_witness :
  create_translation_field en_de Archive "scan" "de"
  = Raise (KeyError "upload_to")
  ∧ (KeyError "upload_to" = FieldDoesNotExist "scan"
     ∨ ∃ field,
         get_field Archive "scan" = Ok field
         ∧ ((KeyError "upload_to"
             = ImproperlyConfigured (__name__ (__class__ field))
             ∧ isinstance field [CharField; TextField; FileField; ImageField]
               = false
             ∧ __name__ (__class__ field) ∉ CUSTOM_FIELDS en_de)
            ∨ (KeyError "upload_to" = KeyError "upload_to"
               ∧ isinstance field [FileField] = true
               ∧ attrs (field_dict field) !! "upload_to" = None))).
Proof.
  assert (Hraise : create_translation_field en_de Archive "scan" "de"
                   = Raise (KeyError "upload_to"))
    by (vm_compute; reflexivity).
  split; [exact Hraise |].
  exact (X17_factory_failures (H := plain_django) en_de Archive "scan" "de"
           (KeyError "upload_to") Hraise).
Defined.

Lemma X18_custom_fields_monotone_witness :
  ∃ self,
    (∀ cls_name, cls_name ∈ CUSTOM_FIELDS en_de_custom →
                 cls_name ∈ CUSTOM_FIELDS en_de_custom_more)
    ∧ create_translation_field en_de_custom News "visits" "de" = Ok self
    ∧ create_translation_field en_de_custom_more News "visits" "de" = Ok self.
Proof.
  destruct (create_translation_field en_de_custom News "visits" "de")
    as [self | e] eqn:Hcreate; [| vm_compute in Hcreate; discriminate].
  assert (Hsub : ∀ cls_name, cls_name ∈ CUSTOM_FIELDS en_de_custom →
                             cls_name ∈ CUSTOM_FIELDS en_de_custom_more).
  { intros cls_name Hin. apply elem_of_cons in Hin as [-> | Hin].
    - apply elem_of_cons. right. apply elem_of_cons. by left.
    - by apply elem_of_nil in Hin. }
  exists self. split; [exact Hsub |]. split; [reflexivity |].
  exact (X18_custom_fields_monotone (H := plain_django) en_de_custom
           en_de_custom_more News "visits" "de" self Hsub Hcreate).
Defined.

Section file_descriptor_witnesses.
Import TranslationFileDescriptor.

Lemma X19_file_get_without_localized_witness :
  file_dict report !! build_localized_fieldname "attachment" "fr" = None
  ∧ __get__ attachment_descriptor (mkLocale "fr") (Some report)
    = Throw (UnboundLocalError "file").
Proof.
  assert (Habsent : file_dict report
                    !! build_localized_fieldname (name attachment_descriptor)
                         (get_language (mkLocale "fr")) = None)
    by (vm_compute; reflexivity).
  split; [exact Habsent |].
  exact (proj1 (X19_file_get_without_localized_attribute attachment_descriptor
                  (mkLocale "fr") report Habsent)).
Defined.

Lemma X20_file_get_localized_witness :
  file_dict report !! "attachment_en" = Some (FStr "files/report.pdf")
  ∧ truthy report (FStr "files/report.pdf") = true
  ∧ ∃ v instance',
      __get__ attachment_descriptor (mkLocale "en") (Some report)
      = Return (v, instance')
      ∧ file_dict instance' !! "attachment_en" = Some v
      ∧ file_dict instance' !! "attachment" = Some (FStr "files/report.pdf").
Proof.
  assert (Hslot : file_dict report
                  !! build_localized_fieldname (name attachment_descriptor)
                       (get_language (mkLocale "en"))
                  = Some (FStr "files/report.pdf"))
    by (vm_compute; reflexivity).
  assert (Htruthy : truthy report (FStr "files/report.pdf") = true)
    by reflexivity.
  split; [exact Hslot |]. split; [exact Htruthy |].
  destruct (X20_file_get_localized attachment_descriptor (mkLocale "en") report
              (FStr "files/report.pdf") Hslot Htruthy)
    as (v & instance' & Hget & Hloc & _ & Hother & _).
  exists v, instance'. split; [exact Hget |]. split; [exact Hloc |].
  exact (eq_trans (Hother "attachment" ltac:(discriminate)) eq_refl).
Defined.

Lemma X21_file_get_falls_back_witness :
  file_dict report !! "attachment_de" = Some (FStr "")
  ∧ truthy report (FStr "") = false
  ∧ fallback_value attachment_descriptor = FNone
  ∧ file_dict report !! "attachment" = Some (FStr "files/report.pdf")
  ∧ ∃ l instance',
      __get__ attachment_descriptor (mkLocale "de") (Some report)
      = Return (FRef l, instance')
      ∧ objects instance' !! l
        = Some {| ff_name := Some "files/report.pdf";
                  ff_field := Some "attachment";
                  ff_file := None; ff_committed := true |}.
Proof.
  assert (Hslot : file_dict report
                  !! build_localized_fieldname (name attachment_descriptor)
                       (get_language (mkLocale "de")) = Some (FStr ""))
    by (vm_compute; reflexivity).
  assert (Horiginal : file_dict report !! name attachment_descriptor
                      = Some (FStr "files/report.pdf"))
    by (vm_compute; reflexivity).
  split; [exact Hslot |]. split; [reflexivity |]. split; [reflexivity |].
  split; [exact Horiginal |].
  destruct (proj2 (X21_file_get_falls_back_to_original_slot
                     attachment_descriptor (mkLocale "de") report (FStr "")
                     Hslot eq_refl eq_refl)
                  (FStr "files/report.pdf") Horiginal)
    as (v & instance' & Hget & _ & _ & Hstring).
  destruct (Hstring "files/report.pdf" eq_refl) as (l & Hv & _ & Hobj).
  exists l, instance'. split; [| exact Hobj].
  exact (eq_trans Hget (f_equal (λ x, Return (x, instance')) Hv)).
Defined.

Lemma X22_file_get_string_fallback_witness :
  file_dict report !! "attachment_de" = Some (FStr "")
  ∧ truthy report (FStr "") = false
  ∧ fallback_value attachment_descriptor_with_fallback
    = FStr "files/missing.pdf"
  ∧ file_dict report !! "attachment" = Some (FStr "files/report.pdf")
  ∧ ∃ l instance',
      __get__ attachment_descriptor_with_fallback (mkLocale "de") (Some report)
      = Return (FRef l, instance')
      ∧ file_dict instance' !! "attachment" = Some (FRef l)
      ∧ objects report !! l = None
      ∧ objects instance' !! l
        = Some {| ff_name := Some "files/missing.pdf";
                  ff_field := Some "attachment";
                  ff_file := None; ff_committed := true |}.
Proof.
  assert (Hslot : file_dict report
                  !! build_localized_fieldname
                       (name attachment_descriptor_with_fallback)
                       (get_language (mkLocale "de")) = Some (FStr ""))
    by (vm_compute; reflexivity).
  split; [exact Hslot |]. split; [reflexivity |]. split; [reflexivity |].
  split; [vm_compute; reflexivity |].
  exact (X22_file_get_string_fallback_overwrites_original
           attachment_descriptor_with_fallback (mkLocale "de") report (FStr "")
           "files/missing.pdf" Hslot eq_refl eq_refl).
Defined.

Lemma X23_file_get_new_objects_witness :
  file_dict report !! "attachment_de" = Some (FStr "")
  ∧ truthy report (FStr "") = false
  ∧ fallback_value attachment_descriptor_with_fallback
    = FStr "files/missing.pdf"
  ∧ ∃ l1 instance1 l2 instance2,
      __get__ attachment_descriptor_with_fallback (mkLocale "de") (Some report)
      = Return (FRef l1, instance1)
      ∧ __get__ attachment_descriptor_with_fallback (mkLocale "de")
          (Some instance1)
        = Return (FRef l2, instance2)
      ∧ l1 ≠ l2.
Proof.
  assert (Hslot : file_dict report
                  !! build_localized_fieldname
                       (name attachment_descriptor_with_fallback)
                       (get_language (mkLocale "de")) = Some (FStr ""))
    by (vm_compute; reflexivity).
  split; [exact Hslot |]. split; [reflexivity |]. split; [reflexivity |].
  exact (X23_file_get_string_fallback_makes_new_objects
           attachment_descriptor_with_fallback (mkLocale "de") report (FStr "")
           "files/missing.pdf" Hslot eq_refl eq_refl).
Defined.

Lemma X24_file_get_idempotent_witness :
  ∃ v instance',
    fallback_value attachment_descriptor = FNone
    ∧ __get__ attachment_descriptor (mkLocale "de") (Some report)
      = Return (v, instance')
    ∧ __get__ attachment_descriptor (mkLocale "de") (Some instance')
      = Return (v, instance').
Proof.
  destruct (__get__ attachment_descriptor (mkLocale "de") (Some report))
    as [[v instance'] | e] eqn:Hget; [| vm_compute in Hget; discriminate].
  exists v, instance'. split; [reflexivity |]. split; [reflexivity |].
  exact (X24_file_get_idempotent_without_fallback attachment_descriptor
           (mkLocale "de") report instance' v eq_refl Hget).
Defined.

Lemma X25_file_get_frame_witness :
  ∃ v instance',
    __get__ attachment_descriptor_with_fallback (mkLocale "de") (Some report)
    = Return (v, instance')
    ∧ file_dict instance' !! "attachment_en" = file_dict report !! "attachment_en"
    ∧ file_descriptors instance' = file_descriptors report.
Proof.
  destruct (__get__ attachment_descriptor_with_fallback (mkLocale "de")
              (Some report))
    as [[v instance'] | e] eqn:Hget; [| vm_compute in Hget; discriminate].
  destruct (X25_file_get_frame attachment_descriptor_with_fallback
              (mkLocale "de") report instance' v Hget)
    as (Hother & Hclass & _).
  exists v, instance'. split; [reflexivity |]. split; [| exact Hclass].
  exact (Hother "attachment_en" ltac:(discriminate) ltac:(discriminate)).
Defined.

Lemma X26_file_set_then_get_witness :
  "files/bericht.pdf" ≠ ""
  ∧ ∃ l instance',
      __get__ attachment_descriptor (mkLocale "de")
        (Some (__set__ attachment_descriptor (mkLocale "de") report
                 (FStr "files/bericht.pdf")))
      = Return (FRef l, instance')
      ∧ (∃ bound_to,
           objects instance' !! l
           = Some {| ff_name := Some "files/bericht.pdf";
                     ff_field := Some bound_to;
                     ff_file := None; ff_committed := true |})
      ∧ file_dict instance' !! name attachment_descriptor
        = Some (FStr "files/bericht.pdf").
Proof.
  assert (Hname : "files/bericht.pdf" ≠ "") by discriminate.
  split; [exact Hname |].
  exact (X26_file_set_then_get attachment_descriptor (mkLocale "de") report
           "files/bericht.pdf" Hname).
Defined.

End file_descriptor_witnesses.
